(** * Route service (app.py): a shallow embedding and its properties

    The service keeps one road graph in memory, refreshes it from a pickle
    file or by download, memoizes nearest-node lookups and answers
    POST /shortest-path.  The libraries it calls (osmnx, networkx, folium,
    the clock, the network and the disk) are not part of the program:
    they appear as the fields of [Libs] (pure calls) and [Env] (calls whose
    answer depends on when they are made).

    Numbers are Python's: [int] is [Z], [float] is a binary64 primitive
    float, so [length / (speed * 1000 / 3600)] rounds as it does in
    CPython. *)

From Stdlib Require Import ZArith String Ascii List Floats Bool.
From stdpp Require Import base option list gmap strings pretty.

Import ListNotations.
#[local] Set Warnings "-register-all".
Open Scope Z_scope.
Open Scope string_scope.

(** ** Python values *)

Module Py.

(** The values that occur in edge attributes, in the request body and in
    the response. A dict is an association list: [jsonify] and
    [request.json] keep the order of the keys. *)
Inductive pyval : Type :=
| VNone
| VBool (b : bool)
| VInt (z : Z)
| VFloat (f : float)
| VStr (s : string)
| VList (l : list pyval)
| VDict (d : list (string * pyval)).

Inductive exn_kind : Type :=
| KeyError | IndexError | TypeError | ValueError | ZeroDivisionError
| OverflowError | AttributeError | NetworkXNoPath | NodeNotFound
| OtherError.

(** An exception: its class and [str(e)]. *)
Record exn : Type := Exn { exn_kind_of : exn_kind; exn_str : string }.

Inductive res (A : Type) : Type :=
| Ok (a : A)
| Raise (e : exn).
Arguments Ok {A} a.
Arguments Raise {A} e.

Definition exn_kind_eqb (a b : exn_kind) : bool :=
  match a, b with
  | KeyError, KeyError | IndexError, IndexError | TypeError, TypeError
  | ValueError, ValueError | ZeroDivisionError, ZeroDivisionError
  | OverflowError, OverflowError | AttributeError, AttributeError
  | NetworkXNoPath, NetworkXNoPath
  | NodeNotFound, NodeNotFound | OtherError, OtherError => true
  | _, _ => false
  end.

(** *** A state and exception monad

    [M S A] is a computation over a mutable store [S] that returns an [A]
    or raises; the store it leaves behind is kept in both cases, as
    Python keeps the mutations done before a [raise]. *)
Definition M (S A : Type) : Type := S -> res A * S.

Definition ret {S A} (a : A) : M S A := fun s => (Ok a, s).
Definition raise {S A} (e : exn) : M S A := fun s => (Raise e, s).
Definition bind {S A B} (c : M S A) (k : A -> M S B) : M S B :=
  fun s => match c s with
           | (Ok a, s') => k a s'
           | (Raise e, s') => (Raise e, s')
           end.
Definition get {S} : M S S := fun s => (Ok s, s).
Definition modify {S} (f : S -> S) : M S unit := fun s => (Ok tt, f s).
Definition lift {S A} (r : res A) : M S A := fun s => (r, s).

(** [try: c except Exception as e: h e] *)
Definition try_except {S A} (c : M S A) (h : exn -> M S A) : M S A :=
  fun s => match c s with
           | (Ok a, s') => (Ok a, s')
           | (Raise e, s') => h e s'
           end.

(** [try: c except (K1, K2, ...) as e: h e]: other classes pass through. *)
Definition try_except_kinds {S A} (ks : list exn_kind) (c : M S A)
    (h : exn -> M S A) : M S A :=
  try_except c (fun e =>
    if existsb (exn_kind_eqb (exn_kind_of e)) ks then h e else raise e).

Declare Scope py_scope.
Delimit Scope py_scope with py.
Notation "x <- c ;; k" := (bind c (fun x => k))
  (at level 100, c at next level, right associativity) : py_scope.
Notation "c ;;; k" := (bind c (fun _ => k))
  (at level 100, right associativity) : py_scope.

(** *** Numbers *)

(** [float(z)] for an int: round to nearest even; [OverflowError] when the
    result would not be finite. *)
Definition float_of_Z (z : Z) : float :=
  SF2Prim (binary_normalize prec emax z 0 false).

Definition float_of_int (z : Z) : res float :=
  let f := float_of_Z z in
  if PrimFloat.is_infinity f
  then Raise (Exn OverflowError "int too large to convert to float")
  else Ok f.

(** The integer a float is equal to, when it is finite and integral. *)
Definition Z_of_float_exact (f : float) : option Z :=
  match Prim2SF f with
  | S754_zero _ => Some 0
  | S754_finite s m e =>
      let m' := if s then Z.neg m else Z.pos m in
      if Z.leb 0 e then Some (m' * 2 ^ e)
      else if Z.eqb (m' mod 2 ^ (- e)) 0 then Some (m' / 2 ^ (- e)) else None
  | _ => None
  end.

(** [a == b] on hashable values: numbers compare by value across [bool],
    [int] and [float] (and NaN differs from itself), strings by content. *)
Definition py_eqb (a b : pyval) : bool :=
  let num v := match v with
               | VBool b => Some (inl (Z.b2z b))
               | VInt z => Some (inl z)
               | VFloat f => Some (inr f)
               | _ => None
               end in
  match num a, num b with
  | Some (inl x), Some (inl y) => Z.eqb x y
  | Some (inr x), Some (inr y) => PrimFloat.eqb x y
  | Some (inl x), Some (inr y) | Some (inr y), Some (inl x) =>
      match Z_of_float_exact y with Some y' => Z.eqb x y' | None => false end
  | _, _ =>
      match a, b with
      | VNone, VNone => true
      | VStr s, VStr t => String.eqb s t
      | _, _ => false
      end
  end.

(** [hash(v)] succeeds: lists and dicts are unhashable. *)
Definition hashable (v : pyval) : bool :=
  match v with VList _ | VDict _ => false | _ => true end.

(** *** Strings *)

(** The characters [str.split()] splits on (ASCII strings). *)
Definition is_space (c : ascii) : bool :=
  let n := nat_of_ascii c in
  (Nat.leb 9 n && Nat.leb n 13) || (Nat.leb 28 n && Nat.leb n 32).

(** [s.split()]: the maximal runs of non-space characters. [cur] is the
    run being read, reversed. *)
Fixpoint split_go (s : string) (cur : list ascii) : list string :=
  let flush rest :=
    match cur with
    | [] => rest
    | _ => string_of_list_ascii (rev cur) :: rest
    end in
  match s with
  | EmptyString => flush []
  | String c s' =>
      if is_space c then flush (split_go s' []) else split_go s' (c :: cur)
  end.

Definition split (s : string) : list string := split_go s [].

End Py.
Import Py.
#[local] Open Scope py_scope.

(** ** The road graph *)

(** A networkx [MultiDiGraph] as osmnx builds it: node ids are ints, every
    node and every edge [(u, v, key)] has an attribute dict. The edges are
    kept in the order [graph.edges(data=True)] yields them. *)
Record edge : Type := Edge {
  e_u : Z;
  e_v : Z;
  e_key : Z;
  e_data : gmap string pyval
}.

Record Graph : Type := MkGraph {
  g_nodes : gmap Z (gmap string pyval);
  g_edges : list edge
}.

Definition with_data (e : edge) (d : gmap string pyval) : edge :=
  Edge (e_u e) (e_v e) (e_key e) d.

Definition with_edges (g : Graph) (es : list edge) : Graph :=
  MkGraph (g_nodes g) es.

(** [not graph]: [None], or a graph with no node ([len(graph) == 0]). *)
Definition graph_falsy (g : option Graph) : bool :=
  match g with
  | None => true
  | Some g => bool_decide (g_nodes g = ∅)
  end.

(** ** What the program calls but does not define *)

(** Calls whose result is a function of their arguments. Exceptions are
    results: the libraries choose their class and text. *)
Record Libs : Type := MkLibs {
  (** [float(s)] for a [str] *)
  float_of_str : string -> res float;
  (** [repr(n)] of a node id, as it shows in [str(KeyError(n))] *)
  repr_node : Z -> string;
  (** [ox.nearest_nodes(graph, lng, lat)] *)
  ox_nearest_nodes : option Graph -> pyval -> pyval -> res Z;
  (** [nx.shortest_path(graph, source, target, weight="travel_time")] *)
  nx_shortest_path : option Graph -> Z -> Z -> res (list Z);
  (** [folium.Map(location=[lat, lng], zoom_start=13)] with its two markers
      and the polyline over the coordinates, then [_repr_html_()] *)
  folium_repr_html : pyval -> pyval -> list (pyval * pyval) -> res string;
  (** the interpreter's [sum] on floats carries Neumaier's correction of
      the rounding error: CPython 3.12 and later; before, it adds term by
      term *)
  sum_is_compensated : bool
}.

(** What [open(cache_file, "wb")] followed by [pickle.dump] can do. *)
Inductive write_outcome : Type :=
| Written
| OpenFailed (e : exn)      (* the file is left as it was *)
| DumpFailed (e : exn).     (* the file was truncated and is not a pickle *)

(** Calls whose result depends on the moment: the [n]-th call of each
    answers as the environment decides. The clock counts microseconds. *)
Record Env : Type := MkEnv {
  datetime_now : nat -> Z;
  ox_graph_from_place : nat -> res Graph;
  ox_graph_from_bbox : nat -> res Graph;
  pickle_dump : nat -> write_outcome
}.

(** ** Edge annotation (app.py 71-83 and 112-123) *)

Section Annotation.
Context (L : Libs).

(** [float(v)] *)
Definition py_float (v : pyval) : res float :=
  match v with
  | VInt z => float_of_int z
  | VBool b => Ok (if b then 1%float else 0%float)
  | VFloat f => Ok f
  | VStr s => float_of_str L s
  | VNone =>
      Raise (Exn TypeError
        "float() argument must be a string or a real number, not 'NoneType'")
  | VList _ =>
      Raise (Exn TypeError
        "float() argument must be a string or a real number, not 'list'")
  | VDict _ =>
      Raise (Exn TypeError
        "float() argument must be a string or a real number, not 'dict'")
  end.

(** [x / y] on floats *)
Definition py_truediv (x y : float) : res float :=
  if PrimFloat.eqb y 0%float
  then Raise (Exn ZeroDivisionError "float division by zero")
  else Ok (x / y)%float.

(** [repr(k)] of a [str] key without quote or backslash *)
Definition repr_str (k : string) : string := "'" ++ k ++ "'".

(** [data[k]] on an attribute dict *)
Definition getattr (k : string) : M (gmap string pyval) pyval :=
  fun d => match d !! k with
           | Some v => (Ok v, d)
           | None => (Raise (Exn KeyError (repr_str k)), d)
           end.

(** [data[k] = v] *)
Definition setattr (k : string) (v : pyval) : M (gmap string pyval) unit :=
  modify (insert k v).

(** [l[0]] *)
Definition first_item {A} (l : list A) : res A :=
  match l with
  | x :: _ => Ok x
  | [] => Raise (Exn IndexError "list index out of range")
  end.

(** The body of the loop over the edges, run on one edge's dict. *)
Definition annotate_edge : M (gmap string pyval) unit :=
  d <- get;;
  (match d !! "maxspeed" with
   | None => setattr "maxspeed" (VInt 30)
   | Some _ => ret tt
   end);;;
  v <- getattr "maxspeed";;
  (match v with
   | VList l =>
       x <- lift (first_item l);;
       f <- lift (py_float x);;
       setattr "maxspeed" (VFloat f)
   | _ => ret tt
   end);;;
  v <- getattr "maxspeed";;
  (match v with
   | VStr s =>
       tok <- lift (first_item (split s));;
       f <- lift (py_float (VStr tok));;
       setattr "maxspeed" (VFloat f)
   | _ => ret tt
   end);;;
  l <- getattr "length";;
  length <- lift (py_float l);;
  v <- getattr "maxspeed";;
  speed <- lift (py_float v);;
  t <- lift (py_truediv length (speed * 1000 / 3600)%float);;
  setattr "travel_time" (VFloat t).

(** [for _, _, data in graph.edges(data=True): ...]: the dicts are the
    graph's own, so the edges already visited stay annotated when a later
    one raises. *)
Fixpoint annotate_edges (es : list edge) : res unit * list edge :=
  match es with
  | [] => (Ok tt, [])
  | e :: es' =>
      match annotate_edge (e_data e) with
      | (Ok _, d) =>
          let (r, es'') := annotate_edges es' in (r, with_data e d :: es'')
      | (Raise x, d) => (Raise x, with_data e d :: es')
      end
  end.

Definition add_speed_and_travel_time : M Graph unit :=
  fun g => let (r, es) := annotate_edges (g_edges g) in (r, with_edges g es).

End Annotation.

(** ** The service *)

(** What the cache file holds. *)
Inductive blob : Type :=
| Pickled (g : option Graph)   (* [pickle.load] gives back [g] *)
| Corrupt.                     (* [pickle.load] raises *)

(** The fields of [RouteService], the table of [lru_cache] (most recently
    used first), the file, and how many times each outside call was made. *)
Record state : Type := MkState {
  graph : option Graph;
  last_update : option Z;
  nearest_cache : list (pyval * pyval * Z);
  cache_file : option blob;
  n_now : nat;
  n_place : nat;
  n_bbox : nat;
  n_dump : nat;
  n_nearest : nat
}.

Definition set_graph (g : option Graph) (s : state) : state :=
  MkState g (last_update s) (nearest_cache s) (cache_file s)
          (n_now s) (n_place s) (n_bbox s) (n_dump s) (n_nearest s).
Definition set_last_update (t : option Z) (s : state) : state :=
  MkState (graph s) t (nearest_cache s) (cache_file s)
          (n_now s) (n_place s) (n_bbox s) (n_dump s) (n_nearest s).
Definition set_nearest_cache (c : list (pyval * pyval * Z)) (s : state)
    : state :=
  MkState (graph s) (last_update s) c (cache_file s)
          (n_now s) (n_place s) (n_bbox s) (n_dump s) (n_nearest s).
Definition set_cache_file (f : option blob) (s : state) : state :=
  MkState (graph s) (last_update s) (nearest_cache s) f
          (n_now s) (n_place s) (n_bbox s) (n_dump s) (n_nearest s).
Definition tick_now (s : state) : state :=
  MkState (graph s) (last_update s) (nearest_cache s) (cache_file s)
          (S (n_now s)) (n_place s) (n_bbox s) (n_dump s) (n_nearest s).
Definition tick_place (s : state) : state :=
  MkState (graph s) (last_update s) (nearest_cache s) (cache_file s)
          (n_now s) (S (n_place s)) (n_bbox s) (n_dump s) (n_nearest s).
Definition tick_bbox (s : state) : state :=
  MkState (graph s) (last_update s) (nearest_cache s) (cache_file s)
          (n_now s) (n_place s) (S (n_bbox s)) (n_dump s) (n_nearest s).
Definition tick_dump (s : state) : state :=
  MkState (graph s) (last_update s) (nearest_cache s) (cache_file s)
          (n_now s) (n_place s) (n_bbox s) (S (n_dump s)) (n_nearest s).
Definition tick_nearest (s : state) : state :=
  MkState (graph s) (last_update s) (nearest_cache s) (cache_file s)
          (n_now s) (n_place s) (n_bbox s) (n_dump s) (S (n_nearest s)).

(** [self.update_interval], in seconds *)
Definition update_interval : Z := 24 * 60 * 60.

(** [lru_cache(maxsize=1000)] *)
Definition maxsize : nat := 1000.

Module RouteService.
Section Methods.
Context (L : Libs) (E : Env).

(** [datetime.now()] *)
Definition now : M state Z :=
  fun s => (Ok (datetime_now E (n_now s)), tick_now s).

(** [should_update_graph]: [total_seconds()] of a difference of [d]
    microseconds exceeds the interval exactly when [d] exceeds it. *)
Definition should_update_graph : M state bool :=
  s <- get;;
  match graph_falsy (graph s), last_update s with
  | false, Some t0 =>
      t <- now;;
      ret (Z.ltb (update_interval * 1000000) (t - t0))
  | _, _ => ret true
  end.

(** [with open(self.cache_file, "wb") as f: pickle.dump(self.graph, f)] *)
Definition dump_graph : M state unit :=
  s <- get;;
  modify tick_dump;;;
  match pickle_dump E (n_dump s) with
  | Written => modify (set_cache_file (Some (Pickled (graph s))))
  | OpenFailed e => raise e
  | DumpFailed e => modify (set_cache_file (Some Corrupt));;; raise e
  end.

(** The loop over [self.graph.edges(data=True)], on the graph the service
    holds: the annotation is written into [self.graph] as it goes. *)
Definition annotate_graph : M state unit :=
  s <- get;;
  match graph s with
  | Some g =>
      let (r, g') := add_speed_and_travel_time L g in
      modify (set_graph (Some g'));;; lift r
  | None =>
      raise (Exn AttributeError "'NoneType' object has no attribute 'edges'")
  end.

(** [download_using_bbox] *)
Definition download_using_bbox : M state unit :=
  try_except
    (s <- get;;
     modify tick_bbox;;;
     g <- lift (ox_graph_from_bbox E (n_bbox s));;
     modify (set_graph (Some g));;;
     annotate_graph;;;
     dump_graph)
    (fun e => raise e).

(** [download_and_cache_graph] *)
Definition download_and_cache_graph : M state unit :=
  try_except
    (s <- get;;
     modify tick_place;;;
     g <- lift (ox_graph_from_place E (n_place s));;
     modify (set_graph (Some g));;;
     annotate_graph;;;
     dump_graph)
    (fun _ => download_using_bbox).

(** [pickle.load] of the cache file; the text of its exception is only
    printed. *)
Definition pickle_load (b : blob) : res (option Graph) :=
  match b with
  | Pickled g => Ok g
  | Corrupt => Raise (Exn OtherError "unpickling failed")
  end.

(** [load_graph], the lock left out: the method runs as one step. *)
Definition load_graph : M state unit :=
  b <- should_update_graph;;
  if b : bool then
    try_except
      (s <- get;;
       (match cache_file s with
        | Some f =>
            g <- lift (pickle_load f);;
            modify (set_graph g)
        | None => download_and_cache_graph
        end);;;
       t <- now;;
       modify (set_last_update (Some t)))
      (fun _ =>
         s <- get;;
         if graph_falsy (graph s) then download_and_cache_graph else ret tt)
  else ret tt.

(** [RouteService()]: [cache] is what the disk holds when the process
    starts. *)
Definition init_state (cache : option blob) : state :=
  MkState None None [] cache 0 0 0 0 0.

Definition __init__ (cache : option blob) : res unit * state :=
  load_graph (init_state cache).

(** *** Nearest node, memoized *)

Definition key_eqb (lat lng : pyval) (entry : pyval * pyval * Z) : bool :=
  py_eqb lat entry.1.1 && py_eqb lng entry.1.2.

(** The entry of a key and the table without it. *)
Fixpoint cache_lookup (lat lng : pyval) (c : list (pyval * pyval * Z))
    : option ((pyval * pyval * Z) * list (pyval * pyval * Z)) :=
  match c with
  | [] => None
  | x :: c' =>
      if key_eqb lat lng x then Some (x, c')
      else match cache_lookup lat lng c' with
           | Some (y, r) => Some (y, x :: r)
           | None => None
           end
  end.

Definition unhashable (v : pyval) : exn :=
  match v with
  | VDict _ => Exn TypeError "unhashable type: 'dict'"
  | _ => Exn TypeError "unhashable type: 'list'"
  end.

(** [get_nearest_node] called on unpacked arguments, through
    [lru_cache]: the key is hashed, a hit
    returns the stored node and makes its entry the most recent, a miss
    calls the method and stores what it returned, dropping the least
    recently used entry of a full table. Nothing is stored when the call
    raises. *)
Definition get_nearest_node (args : list pyval) : M state Z :=
  match find (fun v => negb (hashable v)) args with
  | Some v => raise (unhashable v)
  | None =>
      match args with
      | [lat; lng] =>
          s <- get;;
          match cache_lookup lat lng (nearest_cache s) with
          | Some (x, rest) =>
              modify (set_nearest_cache (x :: rest));;; ret x.2
          | None =>
              modify tick_nearest;;;
              n <- lift (ox_nearest_nodes L (graph s) lng lat);;
              modify (fun s' => set_nearest_cache
                        (take maxsize ((lat, lng, n) :: nearest_cache s')) s');;;
              ret n
          end
      | [] =>
          raise (Exn TypeError
            ("RouteService.get_nearest_node() missing 2 required positional"
             ++ " arguments: 'lat' and 'lng'"))
      | [_] =>
          raise (Exn TypeError
            ("RouteService.get_nearest_node() missing 1 required positional"
             ++ " argument: 'lng'"))
      | _ =>
          raise (Exn TypeError
            ("RouteService.get_nearest_node() takes 3 positional arguments"
             ++ " but " ++ pretty (S (length args)) ++ " were given"))
      end
  end.

(** [find_shortest_path]: [None] is Python's [None]. *)
Definition find_shortest_path (origin destination : list pyval)
    : M state (option (list Z)) :=
  try_except_kinds [NetworkXNoPath; NodeNotFound]
    (origin_node <- get_nearest_node origin;;
     dest_node <- get_nearest_node destination;;
     s <- get;;
     path <- lift (nx_shortest_path L (graph s) origin_node dest_node);;
     ret (Some path))
    (fun _ => ret None).

(** *** The map *)

(** [graph.nodes[node][k]] *)
Definition node_attr (g : Graph) (node : Z) (k : string) : res pyval :=
  match g_nodes g !! node with
  | None => Raise (Exn KeyError (repr_node L node))
  | Some d =>
      match d !! k with
      | Some v => Ok v
      | None => Raise (Exn KeyError (repr_str k))
      end
  end.

(** [[(graph.nodes[n]["y"], graph.nodes[n]["x"]) for n in path]] *)
Fixpoint path_coords (g : Graph) (path : list Z)
    : res (list (pyval * pyval)) :=
  match path with
  | [] => Ok []
  | n :: path' =>
      match node_attr g n "y" with
      | Raise e => Raise e
      | Ok y =>
          match node_attr g n "x" with
          | Raise e => Raise e
          | Ok x =>
              match path_coords g path' with
              | Raise e => Raise e
              | Ok cs => Ok ((y, x) :: cs)
              end
          end
      end
  end.

(** [origin[i]] on the tuple *)
Definition tuple_item (t : list pyval) (i : nat) : res pyval :=
  match t !! i with
  | Some v => Ok v
  | None => Raise (Exn IndexError "tuple index out of range")
  end.

(** [create_route_map]: the pair [(map_html, path_coords)], [(None, None)]
    when there is no path or anything raises. *)
Definition create_route_map (origin : list pyval) (path : option (list Z))
    : M state (option string * option (list (pyval * pyval))) :=
  match path with
  | None | Some [] => ret (None, None)
  | Some p =>
      try_except
        (s <- get;;
         g <- match graph s with
              | Some g => ret g
              | None =>
                  raise (Exn AttributeError
                    "'NoneType' object has no attribute 'nodes'")
              end;;
         coords <- lift (path_coords g p);;
         lat <- lift (tuple_item origin 0);;
         lng <- lift (tuple_item origin 1);;
         html <- lift (folium_repr_html L lat lng coords);;
         ret (Some html, Some coords))
        (fun _ => ret (None, None))
  end.

(** *** Route statistics *)

(** [graph[u][v][0][k]] *)
Definition edge_attr (g : option Graph) (u v : Z) (k : string) : res pyval :=
  match g with
  | None => Raise (Exn TypeError "'NoneType' object is not subscriptable")
  | Some g =>
      match g_nodes g !! u with
      | None => Raise (Exn KeyError (repr_node L u))
      | Some _ =>
          let uv := filter (fun e => bool_decide (e_u e = u /\ e_v e = v))
                           (g_edges g) in
          match uv with
          | [] => Raise (Exn KeyError (repr_node L v))
          | _ =>
              match find (fun e => Z.eqb (e_key e) 0) uv with
              | None => Raise (Exn KeyError "0")
              | Some e =>
                  match e_data e !! k with
                  | Some x => Ok x
                  | None => Raise (Exn KeyError (repr_str k))
                  end
              end
          end
      end
  end.

(** The pairs [(path[i], path[i + 1])] for [i] in [range(len(path) - 1)] *)
Fixpoint consecutive (path : list Z) : list (Z * Z) :=
  match path with
  | u :: (v :: _) as path' => (u, v) :: consecutive path'
  | _ => []
  end.

(** The generator [float(graph[path[i]][path[i + 1]][0][k]) for i in ...],
    run to its end or to its first exception. *)
Fixpoint edge_floats (g : option Graph) (k : string) (ps : list (Z * Z))
    : res (list float) :=
  match ps with
  | [] => Ok []
  | (u, v) :: ps' =>
      match edge_attr g u v k with
      | Raise e => Raise e
      | Ok x =>
          match py_float L x with
          | Raise e => Raise e
          | Ok f =>
              match edge_floats g k ps' with
              | Raise e => Raise e
              | Ok fs => Ok (f :: fs)
              end
          end
      end
  end.

(** One step of the compensated sum of CPython 3.12 and later: the next
    term goes into the running total, and what the addition lost goes into
    the correction. *)
Definition cs_add (acc : float * float) (x : float) : float * float :=
  let (total, c) := acc in
  let t := (total + x)%float in
  (t, if PrimFloat.leb (abs x) (abs total)
      then (c + ((total - t) + x))%float
      else (c + ((x - t) + total))%float).

(** [sum(...)] of floats, from the int [0] it starts with: the int [0]
    when there is nothing to add. The first term is added to it as any
    two numbers are. Up to CPython 3.11 every other term is added in turn,
    [0 + x1 + ... + xn] from left to right; since 3.12 the other terms go
    through [cs_add], and the correction is added at the end when it is
    not zero and is finite. *)
Definition py_sum (fs : list float) : pyval :=
  match fs with
  | [] => VInt 0
  | x :: rest =>
      if sum_is_compensated L then
        let (total, c) := fold_left cs_add rest ((0 + x)%float, 0%float) in
        VFloat (if negb (PrimFloat.eqb c 0) && is_finite c
                then (total + c)%float else total)
      else VFloat (fold_left PrimFloat.add fs 0%float)
  end.

End Methods.
End RouteService.

(** ** The HTTP handler *)

Section Handler.
Context (L : Libs) (E : Env).
Import RouteService.

(** [v[k]] for a [str] key [k] *)
Definition getitem (v : pyval) (k : string) : res pyval :=
  match v with
  | VDict d =>
      match find (fun kv => String.eqb (fst kv) k) d with
      | Some kv => Ok (snd kv)
      | None => Raise (Exn KeyError (repr_str k))
      end
  | VList _ =>
      Raise (Exn TypeError "list indices must be integers or slices, not str")
  | VStr _ => Raise (Exn TypeError "string indices must be integers, not 'str'")
  | VNone => Raise (Exn TypeError "'NoneType' object is not subscriptable")
  | VBool _ => Raise (Exn TypeError "'bool' object is not subscriptable")
  | VInt _ => Raise (Exn TypeError "'int' object is not subscriptable")
  | VFloat _ => Raise (Exn TypeError "'float' object is not subscriptable")
  end.

(** [tuple(v)] *)
Definition py_tuple (v : pyval) : res (list pyval) :=
  match v with
  | VList l => Ok l
  | VDict d => Ok (map (fun kv => VStr (fst kv)) d)
  | VStr s => Ok (map (fun c => VStr (String c EmptyString))
                      (list_ascii_of_string s))
  | VNone => Raise (Exn TypeError "'NoneType' object is not iterable")
  | VBool _ => Raise (Exn TypeError "'bool' object is not iterable")
  | VInt _ => Raise (Exn TypeError "'int' object is not iterable")
  | VFloat _ => Raise (Exn TypeError "'float' object is not iterable")
  end.

(** [jsonify({"error": msg})] *)
Definition error_body (msg : string) : pyval := VDict [("error", VStr msg)].

(** [jsonify] of the coordinate tuples: arrays of two *)
Definition coords_json (cs : list (pyval * pyval)) : pyval :=
  VList (map (fun c => VList [fst c; snd c]) cs).

Definition no_path_found : string := "No path found between the given points".

(** The [try] block of [shortest_path]. [request_json] is what reading
    [request.json] gives: the parsed body, or the exception Flask raises
    for a body it cannot parse. The result is the JSON body and the
    status. *)
Definition shortest_path_try (request_json : res pyval)
    : M state (pyval * Z) :=
  data <- lift request_json;;
  o <- lift (getitem data "origin");;
  origin <- lift (py_tuple o);;
  d <- lift (getitem data "destination");;
  destination <- lift (py_tuple d);;
  path <- find_shortest_path L origin destination;;
  match path with
  | None | Some [] => ret (error_body no_path_found, 404)
  | Some p =>
      m <- create_route_map L origin path;;
      match m with
      | (Some (String _ _), Some coords) =>
          s <- get;;
          total_distance <-
            lift (edge_floats L (graph s) "length" (consecutive p));;
          estimated_time <-
            lift (edge_floats L (graph s) "travel_time" (consecutive p));;
          ret (VDict [("path", coords_json coords);
                      ("stats",
                       VDict [("total_distance", py_sum L total_distance);
                              ("estimated_time", py_sum L estimated_time)])],
               200)
      | _ => ret (error_body "Error creating map visualization", 500)
      end
  end.

(** [shortest_path], the view of POST /shortest-path. *)
Definition shortest_path (request_json : res pyval) : M state (pyval * Z) :=
  try_except (shortest_path_try request_json)
             (fun e => ret (error_body (exn_str e), 500)).

(** One round of [periodic_graph_update]: the sleep is the clock's
    business, then [load_graph]. *)
Definition periodic_graph_update_round : M state unit := load_graph L E.

(** [rounds] rounds of the loop; an exception ends the thread. *)
Fixpoint periodic_graph_update (rounds : nat) : M state unit :=
  match rounds with
  | O => ret tt
  | S n => periodic_graph_update_round;;; periodic_graph_update n
  end.

End Handler.

(** ** What the claims speak of *)

Section Specs.
Context (L : Libs) (E : Env).
Import RouteService.

(** The speed stored for an edge whose downloaded attribute is [raw]. *)
Definition normalized_speed (raw : option pyval) (v : pyval) : Prop :=
  match raw with
  | None => v = VInt 30
  | Some (VList l) =>
      exists x f, head l = Some x /\ py_float L x = Ok f /\ v = VFloat f
  | Some (VStr s) =>
      exists tok f,
        head (split s) = Some tok /\ float_of_str L tok = Ok f /\ v = VFloat f
  | Some w => v = w
  end.

(** [d'] is the dict [d] of a downloaded edge with its speed normalized and
    its travel time, [length / (speed * 1000 / 3600)], added. *)
Definition annotated (d d' : gmap string pyval) : Prop :=
  exists v lv speed length,
    normalized_speed (d !! "maxspeed") v /\
    d !! "length" = Some lv /\
    py_float L lv = Ok length /\
    py_float L v = Ok speed /\
    PrimFloat.eqb (speed * 1000 / 3600) 0 = false /\
    d' = <["travel_time" := VFloat (length / (speed * 1000 / 3600))]>
           (<["maxspeed" := v]> d).

Definition edge_annotated (e e' : edge) : Prop :=
  e_u e' = e_u e /\ e_v e' = e_v e /\ e_key e' = e_key e /\
  annotated (e_data e) (e_data e').

(** What remains of a download once the graph [g0] has been fetched and
    assigned in state [s]: annotate it in place, then write it. *)
Definition after_fetch (g0 : Graph) (s : state) : res unit * state :=
  let (r, es) := annotate_edges L (g_edges g0) in
  let s1 := set_graph (Some (with_edges g0 es)) s in
  match r with
  | Raise e => (Raise e, s1)
  | Ok _ =>
      match pickle_dump E (n_dump s) with
      | Written =>
          (Ok tt, set_cache_file (Some (Pickled (Some (with_edges g0 es))))
                    (tick_dump s1))
      | OpenFailed e => (Raise e, tick_dump s1)
      | DumpFailed e => (Raise e, set_cache_file (Some Corrupt) (tick_dump s1))
      end
  end.

(** The attribute [k] of a parallel edge from [u] to [v] with key 0. *)
Definition key0_attr (g : Graph) (u v : Z) (k : string) (x : pyval) : Prop :=
  exists e, e ∈ g_edges g /\ e_u e = u /\ e_v e = v /\ e_key e = 0 /\
            e_data e !! k = Some x.

(** The weight networkx reads on an edge: its [travel_time], 1 when the
    attribute is missing. *)
Definition travel_time (e : edge) : option float :=
  match e_data e !! "travel_time" with
  | Some (VFloat w) => Some w
  | None => Some 1%float
  | Some _ => None
  end.

(** [walk g s t p c]: [p] lists the nodes of a walk from [s] to [t] along
    edges of [g], of cumulative travel time [c]. *)
Inductive walk (g : Graph) (s : Z) : Z -> list Z -> float -> Prop :=
| walk_here :
    is_Some (g_nodes g !! s) -> walk g s s [s] 0%float
| walk_edge t p c e w :
    walk g s t p c -> e ∈ g_edges g -> e_u e = t -> travel_time e = Some w ->
    walk g s (e_v e) (p ++ [e_v e]) (c + w)%float.

Definition shortest_walk (g : Graph) (s t : Z) (p : list Z) : Prop :=
  exists c, walk g s t p c /\
            forall q c', walk g s t q c' -> PrimFloat.leb c c' = true.

(** What networkx promises for [nx.shortest_path(g, s, t, weight)]: a walk
    of least weight, or [NetworkXNoPath] or [NodeNotFound] when there is
    none. *)
Definition nx_contract (g : Graph) (s t : Z) : Prop :=
  match nx_shortest_path L (Some g) s t with
  | Ok p => shortest_walk g s t p
  | Raise e =>
      (exn_kind_of e = NetworkXNoPath \/ exn_kind_of e = NodeNotFound) /\
      forall p c, ~ walk g s t p c
  end.

(** [adds_up fs r]: [r] is the sum of the floats [fs] taken one after the
    other from the left, each addition rounded: nothing for no term, and
    the sum of the terms before the last plus the last. *)
Inductive adds_up : list float -> float -> Prop :=
| adds_up_nil : adds_up [] 0%float
| adds_up_snoc fs r x :
    adds_up fs r -> adds_up (fs ++ [x]) (r + x)%float.

(** [adds_up_corrected fs t c]: the same sum [t], with the rounding errors
    of its additions gathered in [c] as Neumaier does: the error of
    [t + x] is recovered from the larger of the two in magnitude. *)
Inductive adds_up_corrected : list float -> float -> float -> Prop :=
| adds_up_corrected_one x :
    adds_up_corrected [x] (0 + x)%float 0%float
| adds_up_corrected_snoc fs t c x :
    adds_up_corrected fs t c ->
    adds_up_corrected (fs ++ [x]) (t + x)%float
      (if PrimFloat.leb (abs x) (abs t)
       then c + ((t - (t + x)) + x) else c + ((x - (t + x)) + t))%float.

(** [is_sum fs v]: [v] is what the interpreter's [sum] makes of the floats
    [fs]: the int 0 for none; their sum from the left; or, when the
    interpreter corrects, that sum plus the gathered error, the error left
    out when it is zero, infinite or not a number. *)
Definition is_sum (fs : list float) (v : pyval) : Prop :=
  match fs with
  | [] => v = VInt 0
  | _ =>
      if sum_is_compensated L then
        exists t c, adds_up_corrected fs t c /\
          v = VFloat (if negb (PrimFloat.eqb c 0) && is_finite c
                      then (t + c)%float else t)
      else exists r, adds_up fs r /\ v = VFloat r
  end.

(** The node the memoization table holds for a key, if any. *)
Definition memoized (lat lng : pyval) (s : state) : option Z :=
  match cache_lookup lat lng (nearest_cache s) with
  | Some (x, _) => Some x.2
  | None => None
  end.

(** What a request must leave as it was. *)
Definition request_frame (s s' : state) : Prop :=
  graph s' = graph s /\ last_update s' = last_update s /\
  cache_file s' = cache_file s /\ n_now s' = n_now s /\
  n_place s' = n_place s /\ n_bbox s' = n_bbox s /\ n_dump s' = n_dump s.

(** The two things that happen to the service once it is built: a request
    is handled, or the refresher calls [load_graph]. *)
Inductive event : Type :=
| Request (request_json : res pyval)
| Refresh.

Definition run (ev : event) (s : state) : state :=
  match ev with
  | Request r => (shortest_path L r s).2
  | Refresh => (load_graph L E s).2
  end.

(** A reload is due: no graph in memory (or an empty one), no timestamp,
    or a timestamp older than the interval. *)
Definition reload_due (s : state) : Prop :=
  graph_falsy (graph s) = true \/ last_update s = None \/
  exists t0, last_update s = Some t0 /\
             update_interval * 1000000 < datetime_now E (n_now s) - t0.

(** The state in which the reload starts: the clock has been read when
    there were a graph and a timestamp to compare with. *)
Definition checked (s : state) : state := (should_update_graph E s).2.

(** [last_update = datetime.now()], as [load_graph] does after a load or a
    download that did not raise. *)
Definition stamped (s : state) : state :=
  set_last_update (Some (datetime_now E (n_now s))) (tick_now s).

End Specs.

(** [keeps R c]: whatever [c] returns or raises, the state it leaves is
    related by [R] to the one it started from. *)
Definition keeps (R : state -> state -> Prop) {A} (c : M state A) : Prop :=
  forall s, R s (c s).2.

(** What a refresh must leave as it was: the memoization table and the
    count of searches. *)
Definition table_kept (s s' : state) : Prop :=
  nearest_cache s' = nearest_cache s /\ n_nearest s' = n_nearest s.

(** ** More of the file: the catch-all page, and more to say *)

(** The line feed and the double quote of the page's text. *)
Definition nl : string := String (ascii_of_nat 10) EmptyString.
Definition dq : string := String (ascii_of_nat 34) EmptyString.

(** The text of the f-string of [all_routes] before [{path}]. *)
Definition page_head : string :=
  nl ++ "    <!DOCTYPE html>" ++
  nl ++ "    <html lang=" ++ dq ++ "en" ++ dq ++ ">" ++
  nl ++ "    <head>" ++
  nl ++ "        <meta charset=" ++ dq ++ "UTF-8" ++ dq ++ ">" ++
  nl ++ "        <meta name=" ++ dq ++ "viewport" ++ dq ++ " content=" ++ dq
     ++ "width=device-width, initial-scale=1.0" ++ dq ++ ">" ++
  nl ++ "        <title>Python Server</title>" ++
  nl ++ "        <style>" ++
  nl ++ "            body {" ++
  nl ++ "                font-family: Arial, sans-serif;" ++
  nl ++ "                text-align: center;" ++
  nl ++ "                padding: 50px;" ++
  nl ++ "            }" ++
  nl ++ "            h1 {" ++
  nl ++ "                color: #4CAF50;" ++
  nl ++ "            }" ++
  nl ++ "        </style>" ++
  nl ++ "    </head>" ++
  nl ++ "    <body>" ++
  nl ++ "        <h1>This is a Python Server</h1>" ++
  nl ++ "        <p>The server is running and healthy.</p>" ++
  nl ++ "        <p>You accessed: <strong>".

(** The text after [{path}]. *)
Definition page_tail : string :=
  "</strong></p>" ++
  nl ++ "    </body>" ++
  nl ++ "    </html>" ++
  nl ++ "    ".

(** [all_routes], the view of every other URL: the page, with status 200. *)
Definition all_routes (path : string) : string :=
  page_head ++ path ++ page_tail.

Section MoreSpecs.
Context (L : Libs) (E : Env).
Import RouteService.

(** A Python number. *)
Definition is_number (v : pyval) : Prop :=
  match v with
  | VBool _ | VInt _ | VFloat _ => True
  | _ => False
  end.

(** Two edges with the same endpoints and key. *)
Definition same_edge (e e' : edge) : Prop :=
  e_u e' = e_u e /\ e_v e' = e_v e /\ e_key e' = e_key e.

(** The memoization table is within its bound. *)
Definition table_bounded (s : state) : Prop :=
  (length (nearest_cache s) <= maxsize)%nat.

(** [c] are the coordinates [(y, x)] of the node [n] of [g]. *)
Definition coords_of (g : Graph) (n : Z) (c : pyval * pyval) : Prop :=
  exists d, g_nodes g !! n = Some d /\ d !! "y" = Some c.1 /\
            d !! "x" = Some c.2.

(** The service after a sequence of events. *)
Definition run_all (evs : list event) (s : state) : state :=
  fold_left (fun s ev => run L E ev s) evs s.

(** A relation that carries the bound of the table along. *)
Definition bound_kept (s s' : state) : Prop :=
  table_bounded s -> table_bounded s'.

End MoreSpecs.

(** ** A small world to run the program in

    Stand-ins for the libraries, exact on the inputs used below: [float]
    on strings of decimal digits, the nearest node by squared distance on
    the coordinates, and a shortest path found by relaxing every edge as
    many times as there are nodes. *)

Module Toy.

Definition digit (c : ascii) : option Z :=
  let n := Z.of_nat (nat_of_ascii c) in
  if Z.leb 48 n && Z.leb n 57 then Some (n - 48) else None.

Fixpoint digits (s : string) (acc : Z) : option Z :=
  match s with
  | EmptyString => Some acc
  | String c s' =>
      match digit c with
      | Some d => digits s' (10 * acc + d)
      | None => None
      end
  end.

Definition float_of_str (s : string) : res float :=
  match s, digits s 0 with
  | String _ _, Some z => Ok (float_of_Z z)
  | _, _ => Raise (Exn ValueError "could not convert string to float")
  end.

Definition coord (d : gmap string pyval) (k : string) : option float :=
  match d !! k with
  | Some (VFloat f) => Some f
  | _ => None
  end.

Definition dist2 (lat lng : float) (d : gmap string pyval) : option float :=
  match coord d "y", coord d "x" with
  | Some y, Some x =>
      Some ((y - lat) * (y - lat) + (x - lng) * (x - lng))%float
  | _, _ => None
  end.

Definition nearest_nodes (g : option Graph) (lng lat : pyval) : res Z :=
  match g, lng, lat with
  | Some g, VFloat lng, VFloat lat =>
      if negb (PrimFloat.eqb lng lng && PrimFloat.eqb lat lat)
      then Raise (Exn ValueError "`X` and `Y` cannot contain nulls") else
      let better (best : option (Z * float)) (nd : Z * gmap string pyval) :=
        match dist2 lat lng (snd nd), best with
        | Some d, Some (_, d0) =>
            if PrimFloat.ltb d d0 then Some (fst nd, d) else best
        | Some d, None => Some (fst nd, d)
        | None, _ => best
        end in
      match fold_left better (map_to_list (g_nodes g)) None with
      | Some (n, _) => Ok n
      | None => Raise (Exn ValueError "no node to search")
      end
  | None, _, _ =>
      Raise (Exn AttributeError "'NoneType' object has no attribute 'nodes'")
  | _, _, _ => Raise (Exn TypeError "coordinates must be floats")
  end.

Definition weight (e : edge) : float :=
  match e_data e !! "travel_time" with
  | Some (VFloat w) => w
  | _ => 1%float
  end.

(** One pass over the edges: a node reached through [e] at a lower cost
    takes the path through [e]. Paths are kept reversed. *)
Definition relax (dist : gmap Z (float * list Z)) (e : edge)
    : gmap Z (float * list Z) :=
  match dist !! e_u e with
  | None => dist
  | Some (c, p) =>
      let c' := (c + weight e)%float in
      match dist !! e_v e with
      | Some (c0, _) =>
          if PrimFloat.ltb c' c0 then <[e_v e := (c', e_v e :: p)]> dist
          else dist
      | None => <[e_v e := (c', e_v e :: p)]> dist
      end
  end.

Fixpoint relax_rounds (n : nat) (es : list edge)
    (dist : gmap Z (float * list Z)) : gmap Z (float * list Z) :=
  match n with
  | O => dist
  | S n' => relax_rounds n' es (fold_left relax es dist)
  end.

Definition shortest_path (g : option Graph) (s t : Z) : res (list Z) :=
  match g with
  | None =>
      Raise (Exn AttributeError "'NoneType' object has no attribute 'adj'")
  | Some g =>
      match g_nodes g !! s, g_nodes g !! t with
      | Some _, Some _ =>
          let dist := relax_rounds (size (g_nodes g)) (g_edges g)
                                   {[ s := (0%float, [s]) ]} in
          match dist !! t with
          | Some (_, p) => Ok (rev p)
          | None => Raise (Exn NetworkXNoPath "No path between the nodes")
          end
      | _, _ => Raise (Exn NodeNotFound "Either source or target is not in G")
      end
  end.

Definition libs : Libs :=
  MkLibs float_of_str (fun n => pretty n) nearest_nodes shortest_path
         (fun _ _ _ => Ok "<div>map</div>") true.

(** The same under an interpreter older than 3.12. *)
Definition libs_311 : Libs :=
  MkLibs float_of_str (fun n => pretty n) nearest_nodes shortest_path
         (fun _ _ _ => Ok "<div>map</div>") false.

(** Graphs *)
Definition node (n : Z) (y x : float) : Z * gmap string pyval :=
  (n, {[ "y" := VFloat y; "x" := VFloat x ]}).

Definition road (u v : Z) (d : list (string * pyval)) : edge :=
  Edge u v 0 (list_to_map d).

Definition down : exn := Exn OtherError "connection refused".

End Toy.
(** ** Sample worlds *)

Module Sample.
Import RouteService.

(** One junction. *)
Definition lone : Graph := MkGraph (list_to_map [Toy.node 1 0 0]) [].

(** Two junctions and a one-way road of 100 m signed "40 mph" from the
    first to the second, as downloaded and as annotated. *)
Definition town_raw : Graph :=
  MkGraph (list_to_map [Toy.node 1 0 0; Toy.node 2 10 10])
          [Toy.road 1 2 [("length", VFloat 100); ("maxspeed", VStr "40 mph")]].

Definition main_road : edge :=
  Toy.road 1 2 [("length", VFloat 100); ("maxspeed", VFloat 40);
                ("travel_time", VFloat 9)].

Definition town : Graph := with_edges town_raw [main_road].


(** The network answers the query by place name with [town_raw], the disk
    accepts the write, the clock stands at 0. *)
Definition online : Env :=
  MkEnv (fun _ => 0) (fun _ => Ok town_raw) (fun _ => Raise Toy.down)
        (fun _ => Written).

(** More than a day later, the network still answering. *)
Definition next_day : Env :=
  MkEnv (fun _ => 1000000000000) (fun _ => Ok town_raw)
        (fun _ => Raise Toy.down) (fun _ => Written).

(** More than a day later, without network. *)
Definition offline : Env :=
  MkEnv (fun _ => 1000000000000) (fun _ => Raise Toy.down)
        (fun _ => Raise Toy.down) (fun _ => Written).


(** A service that has just started, with no cache file. *)
Definition fresh : state := init_state None.

(** A service holding graph [g] since time [t], with [file] on disk. *)
Definition serving (g : Graph) (t : Z) (file : option blob) : state :=
  MkState (Some g) (Some t) [] file 0 0 0 0 0.

Definition point (y x : float) : list pyval := [VFloat y; VFloat x].

Definition body (o d : list pyval) : pyval :=
  VDict [("origin", VList o); ("destination", VList d)].

(** The town service, then after looking up the south-west corner, then
    the north-east one. *)
Definition in_town : state := serving town 0 None.
Definition in_town_sw : state :=
  (get_nearest_node Toy.libs (point 0 0) in_town).2.
Definition in_town_sw_ne : state :=
  (get_nearest_node Toy.libs (point 10 10) in_town_sw).2.
Definition in_town_ne : state :=
  (get_nearest_node Toy.libs (point 10 10) in_town).2.
Definition in_town_ne_sw : state :=
  (get_nearest_node Toy.libs (point 0 0) in_town_ne).2.

(** A service holding [lone] whose cache file holds [town]: the
    north-east corner is looked up, then a day passes and the refresher
    runs. *)
Definition before_swap : state :=
  (get_nearest_node Toy.libs (point 10 10)
     (serving lone 0 (Some (Pickled (Some town))))).2.
Definition after_swap : state := (load_graph Toy.libs offline before_swap).2.

(** A service whose first start found an unreadable cache file. *)
Definition recovered : state := (__init__ Toy.libs online (Some Corrupt)).2.

End Sample.

(** More sample worlds. *)

Module Case.
Import RouteService.

(** The edge of [Sample.town_raw], and a loop with a speed tag that is not a
    number. *)
Definition signed_road : edge :=
  Toy.road 1 2 [("length", VFloat 100); ("maxspeed", VStr "40 mph")].
Definition unsigned_loop : edge :=
  Toy.road 2 2 [("length", VFloat 50); ("maxspeed", VStr "signals")].

(** The network down for good, the clock at 0. *)
Definition dead : Env :=
  MkEnv (fun _ => 0) (fun _ => Raise Toy.down) (fun _ => Raise Toy.down)
        (fun _ => Written).

(** A clock that shows one hour more at each reading, the network up. *)
Definition hourly : Env :=
  MkEnv (fun n => Z.of_nat n * 3600000000) (fun _ => Ok Sample.town_raw)
        (fun _ => Raise Toy.down) (fun _ => Written).

(** Three junctions in a row, the middle one without coordinates. *)
Definition gap : Graph :=
  MkGraph (list_to_map [Toy.node 1 0 0; Toy.node 2 10 10; (3, ∅)])
          [Toy.road 1 3 [("travel_time", VFloat 1)];
           Toy.road 3 2 [("travel_time", VFloat 1)]].

Definition in_gap : state := Sample.serving gap 0 None.

(** The state of the service once the town graph has been downloaded. *)
Definition downloaded : state :=
  (download_and_cache_graph Toy.libs Sample.online Sample.fresh).2.

(** A service with a stale graph and the file a download wrote. *)
Definition stale_with_file : state :=
  Sample.serving Sample.lone (-100000000000) (cache_file downloaded).

(** Three junctions in a line. Between the first two there is a second,
    slower road, with key 1, which the graph lists first. *)
Definition line : Graph :=
  MkGraph (list_to_map [Toy.node 1 0 0; Toy.node 2 10 10; Toy.node 3 20 20])
          [Edge 1 2 1 (list_to_map [("length", VFloat 80);
                                    ("travel_time", VFloat 20)]);
           Toy.road 1 2 [("length", VFloat 100); ("travel_time", VFloat 9)];
           Toy.road 2 3 [("length", VFloat 250.5);
                         ("travel_time", VFloat 30.25)]].

Definition on_line : state := Sample.serving line 0 None.

(** A service holding [Sample.town] whose cache file holds [Sample.lone]:
    the north-east corner is looked up, then a day passes and the
    refresher runs. *)
Definition before_shrink : state :=
  (get_nearest_node Toy.libs (Sample.point 10 10)
     (Sample.serving Sample.town 0 (Some (Pickled (Some Sample.lone))))).2.
Definition after_shrink : state :=
  (load_graph Toy.libs Sample.offline before_shrink).2.

(** A service started on a cache file that pickled [None]. *)
Definition started_empty : state :=
  (__init__ Toy.libs Sample.online (Some (Pickled None))).2.

End Case.

(** ** Proofs *)

(** *** The monad *)

Section MonadLemmas.
Context {S A B : Type}.

Lemma bind_eq_Ok (c : M S A) (k : A -> M S B) s a s1 :
  c s = (Ok a, s1) -> bind c k s = k a s1.
Proof. unfold bind. by intros ->. Qed.

Lemma bind_eq_Raise (c : M S A) (k : A -> M S B) s e s1 :
  c s = (Raise e, s1) -> bind c k s = (Raise e, s1).
Proof. unfold bind. by intros ->. Qed.

Lemma bind_Ok (c : M S A) (k : A -> M S B) s b s' :
  bind c k s = (Ok b, s') ->
  exists a s1, c s = (Ok a, s1) /\ k a s1 = (Ok b, s').
Proof.
  unfold bind. destruct (c s) as [[a|e] s1]; [|discriminate].
  intros H. by exists a, s1.
Qed.

End MonadLemmas.

Ltac crunch :=
  repeat (simplify_map_eq/=;
          match goal with
          | H : context [match ?x with _ => _ end] |- _ => destruct x eqn:?
          end);
  simplify_map_eq/=.

(** *** Annotation *)

Section AnnotationProofs.
Context (L : Libs).

Lemma first_item_head {A} (l : list A) x :
  first_item l = Ok x -> head l = Some x.
Proof. destruct l; simpl; congruence. Qed.

Lemma annotate_edge_ok d d' :
  annotate_edge L d = (Ok tt, d') -> annotated L d d'.
Proof.
  unfold annotate_edge, bind, get, setattr, getattr, modify, lift, ret,
    py_truediv, annotated.
  intros H.
  destruct (d !! "maxspeed") as [raw|] eqn:Hraw; [destruct raw|]; crunch.
  all: eexists _, _, _, _.
  all: split;
    [ first [ reflexivity
            | eexists _, _; split_and!;
              [by apply first_item_head | eassumption | reflexivity] ] |].
  all: split; [reflexivity|].
  all: split; [eassumption|].
  all: split; [simpl; first [eassumption | reflexivity]|].
  all: split; [first [eassumption | reflexivity]|].
  all: by rewrite ?(insert_id _ _ _ Hraw).
Qed.

Lemma annotate_edges_ok es es' :
  annotate_edges L es = (Ok tt, es') -> Forall2 (edge_annotated L) es es'.
Proof.
  revert es'. induction es as [|e es IH]; intros es' H; simpl in H.
  - inversion H. constructor.
  - destruct (annotate_edge L (e_data e)) as [[[]|x] d] eqn:He.
    + destruct (annotate_edges L es) as [r es''] eqn:Hes.
      inversion H; subst. constructor.
      * repeat split. by apply annotate_edge_ok.
      * by apply IH.
    + inversion H.
Qed.

End AnnotationProofs.

(** *** Downloads *)

Section DownloadProofs.
Context (L : Libs) (E : Env).
Import RouteService.

Lemma download_using_bbox_eq s :
  download_using_bbox L E s =
  match ox_graph_from_bbox E (n_bbox s) with
  | Raise e => (Raise e, tick_bbox s)
  | Ok g0 => after_fetch L E g0 (tick_bbox s)
  end.
Proof.
  unfold download_using_bbox, try_except, annotate_graph, dump_graph,
    add_speed_and_travel_time, after_fetch, bind, get, modify, lift, raise.
  destruct (ox_graph_from_bbox E (n_bbox s)) as [g0|e]; simpl; [|done].
  destruct (annotate_edges L (g_edges g0)) as [[[]|x] es]; simpl; [|done].
  by destruct (pickle_dump E (n_dump s)).
Qed.

Lemma download_and_cache_graph_eq s :
  download_and_cache_graph L E s =
  match ox_graph_from_place E (n_place s) with
  | Raise e => download_using_bbox L E (tick_place s)
  | Ok g0 =>
      match after_fetch L E g0 (tick_place s) with
      | (Ok _, s') => (Ok tt, s')
      | (Raise _, s') => download_using_bbox L E s'
      end
  end.
Proof.
  unfold download_and_cache_graph, try_except, annotate_graph, dump_graph,
    add_speed_and_travel_time, after_fetch, bind, get, modify, lift, raise.
  destruct (ox_graph_from_place E (n_place s)) as [g0|e]; simpl; [|done].
  destruct (annotate_edges L (g_edges g0)) as [[[]|x] es]; simpl; [|done].
  by destruct (pickle_dump E (n_dump s)).
Qed.

Lemma after_fetch_ok g0 s s' :
  after_fetch L E g0 s = (Ok tt, s') ->
  exists g, graph s' = Some g /\ cache_file s' = Some (Pickled (Some g)) /\
            g_nodes g = g_nodes g0 /\
            Forall2 (edge_annotated L) (g_edges g0) (g_edges g).
Proof.
  unfold after_fetch.
  destruct (annotate_edges L (g_edges g0)) as [[[]|x] es] eqn:Hes;
    [|discriminate].
  destruct (pickle_dump E (n_dump s)); try discriminate.
  intros [= <-]. exists (with_edges g0 es). simpl.
  split_and!; try done. by apply annotate_edges_ok.
Qed.

Lemma after_fetch_n_bbox g0 s : n_bbox (after_fetch L E g0 s).2 = n_bbox s.
Proof.
  unfold after_fetch.
  destruct (annotate_edges L (g_edges g0)) as [[[]|x] es]; [|done].
  by destruct (pickle_dump E (n_dump s)).
Qed.

Lemma download_using_bbox_ok s s' :
  download_using_bbox L E s = (Ok tt, s') ->
  exists g0 g,
    ox_graph_from_bbox E (n_bbox s) = Ok g0 /\
    graph s' = Some g /\ cache_file s' = Some (Pickled (Some g)) /\
    g_nodes g = g_nodes g0 /\
    Forall2 (edge_annotated L) (g_edges g0) (g_edges g).
Proof.
  rewrite download_using_bbox_eq.
  destruct (ox_graph_from_bbox E (n_bbox s)) as [g0|e]; [|discriminate].
  intros (g & ? & ? & ? & ?)%after_fetch_ok. by exists g0, g.
Qed.

Lemma download_and_cache_graph_ok s s' :
  download_and_cache_graph L E s = (Ok tt, s') ->
  exists g0 g,
    (ox_graph_from_place E (n_place s) = Ok g0 \/
     ox_graph_from_bbox E (n_bbox s) = Ok g0) /\
    graph s' = Some g /\ cache_file s' = Some (Pickled (Some g)) /\
    g_nodes g = g_nodes g0 /\
    Forall2 (edge_annotated L) (g_edges g0) (g_edges g).
Proof.
  rewrite download_and_cache_graph_eq.
  destruct (ox_graph_from_place E (n_place s)) as [g0|e] eqn:Hp.
  - pose proof (after_fetch_n_bbox g0 (tick_place s)) as Hn.
    destruct (after_fetch L E g0 (tick_place s)) as [[[]|x] s1] eqn:Ha.
    + intros [= <-].
      apply after_fetch_ok in Ha as (g & ? & ? & ? & ?).
      exists g0, g. auto.
    + intros (g1 & g & Hb & ?)%download_using_bbox_ok. simpl in Hn.
      rewrite Hn in Hb. exists g1, g. auto.
  - intros (g1 & g & Hb & ?)%download_using_bbox_ok. exists g1, g. auto.
Qed.

(** The counters a download moves. *)
Lemma after_fetch_counts g0 s :
  let s' := (after_fetch L E g0 s).2 in
  n_place s' = n_place s /\ n_bbox s' = n_bbox s /\ n_now s' = n_now s /\
  last_update s' = last_update s /\
  (n_dump s <= n_dump s' <= S (n_dump s))%nat.
Proof.
  unfold after_fetch.
  destruct (annotate_edges L (g_edges g0)) as [[[]|x] es]; simpl.
  - destruct (pickle_dump E (n_dump s)); simpl; split_and!; auto.
  - split_and!; auto.
Qed.

Lemma download_using_bbox_counts s :
  let s' := (download_using_bbox L E s).2 in
  n_place s' = n_place s /\ n_bbox s' = S (n_bbox s) /\ n_now s' = n_now s /\
  last_update s' = last_update s /\
  (n_dump s <= n_dump s' <= S (n_dump s))%nat.
Proof.
  rewrite download_using_bbox_eq.
  destruct (ox_graph_from_bbox E (n_bbox s)) as [g0|e]; simpl.
  - apply (after_fetch_counts g0 (tick_bbox s)).
  - split_and!; auto.
Qed.

Lemma download_and_cache_graph_counts s :
  let s' := (download_and_cache_graph L E s).2 in
  n_place s' = S (n_place s) /\
  (n_bbox s <= n_bbox s' <= S (n_bbox s))%nat /\ n_now s' = n_now s /\
  last_update s' = last_update s /\
  (n_dump s <= n_dump s' <= S (S (n_dump s)))%nat.
Proof.
  rewrite download_and_cache_graph_eq.
  destruct (ox_graph_from_place E (n_place s)) as [g0|e]; simpl.
  - pose proof (after_fetch_counts g0 (tick_place s)) as Ha. simpl in Ha.
    destruct (after_fetch L E g0 (tick_place s)) as [[[]|x] s1]; simpl in *.
    + destruct Ha as (-> & -> & -> & -> & ?). split_and!; auto; lia.
    + pose proof (download_using_bbox_counts s1) as Hb. simpl in Hb.
      destruct Ha as (<- & <- & <- & <- & ?).
      destruct Hb as (-> & -> & -> & -> & ?). split_and!; auto; lia.
  - pose proof (download_using_bbox_counts (tick_place s)) as Hb.
    simpl in Hb. destruct Hb as (-> & -> & -> & -> & ?).
    split_and!; auto; lia.
Qed.


End DownloadProofs.

(** *** What an operation leaves alone *)

Section Keeps.
Context (R : state -> state -> Prop).
Context (R_refl : forall s, R s s).
Context (R_trans : forall s1 s2 s3, R s1 s2 -> R s2 s3 -> R s1 s3).

Lemma keeps_ret {A} (a : A) : keeps R (ret a).
Proof using R_refl. intros s. apply R_refl. Qed.

Lemma keeps_raise {A} e : keeps R (@raise state A e).
Proof using R_refl. intros s. apply R_refl. Qed.

Lemma keeps_lift {A} (r : res A) : keeps R (lift r).
Proof using R_refl. intros s. apply R_refl. Qed.

Lemma keeps_get : keeps R get.
Proof using R_refl. intros s. apply R_refl. Qed.

Lemma keeps_modify f : (forall s, R s (f s)) -> keeps R (modify f).
Proof. intros H s. apply H. Qed.

Lemma keeps_bind {A B} (c : M state A) (k : A -> M state B) :
  keeps R c -> (forall a, keeps R (k a)) -> keeps R (bind c k).
Proof using R_trans.
  intros Hc Hk s. unfold bind. specialize (Hc s).
  destruct (c s) as [[a|e] s1]; simpl in *; [|done].
  eapply R_trans; [exact Hc|apply Hk].
Qed.

Lemma keeps_try_except {A} (c : M state A) h :
  keeps R c -> (forall e, keeps R (h e)) -> keeps R (try_except c h).
Proof using R_trans.
  intros Hc Hh s. unfold try_except. specialize (Hc s).
  destruct (c s) as [[a|e] s1]; simpl in *; [done|].
  eapply R_trans; [exact Hc|apply Hh].
Qed.

Lemma keeps_try_except_kinds {A} ks (c : M state A) h :
  keeps R c -> (forall e, keeps R (h e)) -> keeps R (try_except_kinds ks c h).
Proof using R_refl R_trans.
  intros Hc Hh. apply keeps_try_except; [done|].
  intros e. destruct (existsb _ ks); [apply Hh|apply keeps_raise].
Qed.

End Keeps.

Lemma request_frame_refl s : request_frame s s.
Proof. by repeat split. Qed.

Lemma request_frame_trans s1 s2 s3 :
  request_frame s1 s2 -> request_frame s2 s3 -> request_frame s1 s3.
Proof.
  unfold request_frame.
  intros (?&?&?&?&?&?&?) (?&?&?&?&?&?&?). split_and!; congruence.
Qed.

(** *** What a refresh leaves alone: the memoization table *)

Lemma table_kept_refl s : table_kept s s.
Proof. by split. Qed.

Lemma table_kept_trans s1 s2 s3 :
  table_kept s1 s2 -> table_kept s2 s3 -> table_kept s1 s3.
Proof. unfold table_kept. intros [] []. split; congruence. Qed.

Ltac keeps_step R_refl R_trans :=
  first
    [ apply (keeps_ret _ R_refl)
    | apply (keeps_raise _ R_refl)
    | apply (keeps_lift _ R_refl)
    | apply (keeps_get _ R_refl)
    | apply keeps_modify; intros ?; by repeat split
    | apply (keeps_bind _ R_trans); [|intros ?]
    | apply (keeps_try_except _ R_trans); [|intros ?]
    | apply (keeps_try_except_kinds _ R_refl R_trans); [|intros ?] ].

Section RefreshFrame.
Context (L : Libs) (E : Env).
Import RouteService.

Local Ltac go :=
  repeat first [keeps_step table_kept_refl table_kept_trans | case_match].

Lemma now_keeps_table : keeps table_kept (now E).
Proof. by intros s. Qed.

Lemma should_update_graph_keeps_table :
  keeps table_kept (should_update_graph E).
Proof. unfold should_update_graph. go; apply now_keeps_table. Qed.

Lemma dump_graph_keeps_table : keeps table_kept (dump_graph E).
Proof. unfold dump_graph. go. Qed.

Lemma annotate_graph_keeps_table : keeps table_kept (annotate_graph L).
Proof. unfold annotate_graph. go. Qed.

Lemma download_using_bbox_keeps_table :
  keeps table_kept (download_using_bbox L E).
Proof.
  unfold download_using_bbox. go.
  all: first [apply annotate_graph_keeps_table | apply dump_graph_keeps_table].
Qed.

Lemma download_and_cache_graph_keeps_table :
  keeps table_kept (download_and_cache_graph L E).
Proof.
  unfold download_and_cache_graph. go.
  all: first [ apply annotate_graph_keeps_table | apply dump_graph_keeps_table
             | apply download_using_bbox_keeps_table ].
Qed.

Lemma load_graph_keeps_table : keeps table_kept (load_graph L E).
Proof.
  unfold load_graph. go.
  all: first [ apply should_update_graph_keeps_table
             | apply download_and_cache_graph_keeps_table
             | apply now_keeps_table ].
Qed.

Lemma periodic_graph_update_keeps_table rounds :
  keeps table_kept (periodic_graph_update L E rounds).
Proof.
  induction rounds; simpl; go; first [apply load_graph_keeps_table|done].
Qed.

End RefreshFrame.

(** *** Nearest node *)

Section NearestProofs.
Context (L : Libs).
Import RouteService.

Lemma cache_lookup_Some lat lng c x rest :
  cache_lookup lat lng c = Some (x, rest) -> key_eqb lat lng x = true.
Proof.
  revert rest. induction c as [|y c IH]; intros rest; simpl; [done|].
  destruct (key_eqb lat lng y) eqn:Hy.
  - by intros [= <- _].
  - destruct (cache_lookup lat lng c) as [[z r]|]; [|done].
    intros [= <- _]. by eapply IH.
Qed.

Lemma cache_lookup_take lat lng c n :
  cache_lookup lat lng c = None -> cache_lookup lat lng (take n c) = None.
Proof.
  revert n. induction c as [|y c IH]; intros [|n]; simpl; try done.
  destruct (key_eqb lat lng y); [done|].
  destruct (cache_lookup lat lng c) as [[z r]|] eqn:Hc; [done|].
  intros _. by rewrite IH.
Qed.

Lemma get_nearest_node_eq lat lng s :
  hashable lat = true -> hashable lng = true ->
  get_nearest_node L [lat; lng] s =
  match cache_lookup lat lng (nearest_cache s) with
  | Some (x, rest) => (Ok x.2, set_nearest_cache (x :: rest) s)
  | None =>
      match ox_nearest_nodes L (graph s) lng lat with
      | Ok n =>
          (Ok n, set_nearest_cache
                   (take maxsize ((lat, lng, n) :: nearest_cache s))
                   (tick_nearest s))
      | Raise e => (Raise e, tick_nearest s)
      end
  end.
Proof.
  intros Hlat Hlng. unfold get_nearest_node. simpl.
  rewrite Hlat, Hlng. simpl.
  unfold bind, get, modify, lift, ret.
  destruct (cache_lookup lat lng (nearest_cache s)) as [[x rest]|]; [done|].
  by destruct (ox_nearest_nodes L (graph s) lng lat).
Qed.

Lemma get_nearest_node_hashable lat lng s a s1 :
  get_nearest_node L [lat; lng] s = (Ok a, s1) ->
  hashable lat = true /\ hashable lng = true.
Proof.
  unfold get_nearest_node. simpl.
  destruct (hashable lat); simpl; [|discriminate].
  destruct (hashable lng); simpl; [|discriminate]. done.
Qed.

(** The node a lookup returns is the memoized one on a hit, and on a miss
    what the search on the graph in memory answers. *)
Lemma get_nearest_node_Ok lat lng s a s1 :
  get_nearest_node L [lat; lng] s = (Ok a, s1) ->
  memoized lat lng s = Some a \/
  (memoized lat lng s = None /\
   ox_nearest_nodes L (graph s) lng lat = Ok a).
Proof.
  intros H. destruct (get_nearest_node_hashable _ _ _ _ _ H) as [Hlat Hlng].
  rewrite get_nearest_node_eq in H by done. unfold memoized.
  destruct (cache_lookup lat lng (nearest_cache s)) as [[x rest]|].
  - left. by injection H as <- _.
  - right. destruct (ox_nearest_nodes L (graph s) lng lat); [|done].
    by injection H as <- _.
Qed.

(** After a lookup that returned [a], the table answers [a] for the same
    key whenever the key is equal to itself. *)
Lemma get_nearest_node_memoizes lat lng s a s1 :
  py_eqb lat lat = true -> py_eqb lng lng = true ->
  get_nearest_node L [lat; lng] s = (Ok a, s1) ->
  exists x rest,
    cache_lookup lat lng (nearest_cache s1) = Some (x, rest) /\ x.2 = a.
Proof.
  intros Elat Elng H.
  destruct (get_nearest_node_hashable _ _ _ _ _ H) as [Hlat Hlng].
  rewrite get_nearest_node_eq in H by done.
  destruct (cache_lookup lat lng (nearest_cache s)) as [[x rest]|] eqn:Hc.
  - injection H as <- <-. exists x, rest. simpl.
    by rewrite (cache_lookup_Some _ _ _ _ _ Hc).
  - destruct (ox_nearest_nodes L (graph s) lng lat) as [n|]; [|done].
    injection H as <- <-. eexists (lat, lng, n), _. simpl.
    unfold key_eqb. simpl. rewrite Elat, Elng. done.
Qed.

(** C9. A second call with the same pair, after a first one that returned
    [a], returns [a] again from the table: the search is not called
    (its call count stays), and nothing but the table's order changes.
    This holds in every state that has the table the first call left,
    whatever graph that state holds; such is the state after any number
    of refreshes. The pair must be equal to itself: no NaN in it. *)
Theorem get_nearest_node_hits_cache lat lng s a s1 :
  py_eqb lat lat = true -> py_eqb lng lng = true ->
  get_nearest_node L [lat; lng] s = (Ok a, s1) ->
  (forall s2, nearest_cache s2 = nearest_cache s1 ->
     exists c, get_nearest_node L [lat; lng] s2 =
               (Ok a, set_nearest_cache c s2)) /\
  (forall E rounds,
     let s2 := (periodic_graph_update L E rounds s1).2 in
     exists c, get_nearest_node L [lat; lng] s2 =
               (Ok a, set_nearest_cache c s2)).
Proof.
  intros Elat Elng H.
  destruct (get_nearest_node_hashable _ _ _ _ _ H) as [Hlat Hlng].
  destruct (get_nearest_node_memoizes _ _ _ _ _ Elat Elng H)
    as (x & rest & Hc & Hx).
  assert (Hhit : forall s2, nearest_cache s2 = nearest_cache s1 ->
     exists c, get_nearest_node L [lat; lng] s2 =
               (Ok a, set_nearest_cache c s2)).
  { intros s2 Hs2. rewrite get_nearest_node_eq by done.
    rewrite Hs2, Hc, Hx. by eexists. }
  split; [exact Hhit|].
  intros E rounds s2. apply Hhit.
  apply (periodic_graph_update_keeps_table L E rounds s1).
Qed.

End NearestProofs.

(** *** Requests leave the graph alone *)

Section RequestFrame.
Context (L : Libs).
Import RouteService.

Local Ltac go :=
  repeat first [keeps_step request_frame_refl request_frame_trans | case_match].

Lemma get_nearest_node_frame args :
  keeps request_frame (get_nearest_node L args).
Proof. unfold get_nearest_node. go. Qed.

Lemma find_shortest_path_frame o d :
  keeps request_frame (find_shortest_path L o d).
Proof. unfold find_shortest_path. go; apply get_nearest_node_frame. Qed.

Lemma create_route_map_same origin path s :
  (create_route_map L origin path s).2 = s.
Proof.
  unfold create_route_map, try_except, bind, get, lift, ret, raise.
  repeat case_match; simplify_eq/=; done.
Qed.

Lemma create_route_map_frame origin path :
  keeps request_frame (create_route_map L origin path).
Proof. intros s. rewrite create_route_map_same. apply request_frame_refl. Qed.

Lemma shortest_path_try_frame req :
  keeps request_frame (shortest_path_try L req).
Proof.
  unfold shortest_path_try. go.
  all: first [ apply get_nearest_node_frame | apply find_shortest_path_frame
             | apply create_route_map_frame ].
Qed.

Lemma shortest_path_frame req : keeps request_frame (shortest_path L req).
Proof.
  unfold shortest_path. apply (keeps_try_except _ request_frame_trans).
  - apply shortest_path_try_frame.
  - intros e. apply (keeps_ret _ request_frame_refl).
Qed.

(** C10. Handling a request leaves the graph, the timestamp and the cache
    file as they were, and makes no download, no write and no reading of
    the clock; a step of the service that changes any of them is a
    refresh. *)
Theorem request_leaves_graph_alone E s :
  (forall req, request_frame s (shortest_path L req s).2) /\
  (forall ev, ~ request_frame s (run L E ev s) -> ev = Refresh).
Proof.
  split; [intros req; apply shortest_path_frame|].
  intros [req|] H; [|done]. destruct H. apply shortest_path_frame.
Qed.

End RequestFrame.

(** *** Finding the path *)

Section PathProofs.
Context (L : Libs).
Import RouteService.

(** The search for a path once both endpoints are resolved. *)
Lemma find_shortest_path_eq o d s a s1 b s2 :
  get_nearest_node L o s = (Ok a, s1) ->
  get_nearest_node L d s1 = (Ok b, s2) ->
  find_shortest_path L o d s =
  match nx_shortest_path L (graph s) a b with
  | Ok p => (Ok (Some p), s2)
  | Raise e =>
      match exn_kind_of e with
      | NetworkXNoPath | NodeNotFound => (Ok None, s2)
      | _ => (Raise e, s2)
      end
  end.
Proof.
  intros Ha Hb.
  assert (Hg : graph s2 = graph s).
  { pose proof (get_nearest_node_frame L o s) as (H1 & _).
    pose proof (get_nearest_node_frame L d s1) as (H2 & _).
    rewrite Ha in H1. rewrite Hb in H2. simpl in *. congruence. }
  unfold find_shortest_path, try_except_kinds, try_except.
  rewrite (bind_eq_Ok _ _ _ _ _ Ha), (bind_eq_Ok _ _ _ _ _ Hb).
  unfold bind, get, lift, ret, raise. rewrite Hg.
  destruct (nx_shortest_path L (graph s) a b) as [p|[k msg]]; [done|].
  by destruct k.
Qed.

Lemma walk_ends g s t p c :
  walk g s t p c -> head p = Some s /\ last p = Some t.
Proof.
  induction 1 as [|t p c e w _ [IH1 IH2]]; [done|]. split.
  - destruct p; [done|]. simpl in *. done.
  - by rewrite last_snoc.
Qed.

(** The second of two lookups of one pair returns what the first did,
    from the table or, for a pair that no table entry can equal, from the
    same search on the same graph. *)
Lemma get_nearest_node_again lat lng s a s1 :
  get_nearest_node L [lat; lng] s = (Ok a, s1) ->
  exists s2, get_nearest_node L [lat; lng] s1 = (Ok a, s2).
Proof.
  intros H.
  destruct (get_nearest_node_hashable _ _ _ _ _ _ H) as [Hlat Hlng].
  rewrite get_nearest_node_eq in H by done.
  rewrite get_nearest_node_eq by done.
  destruct (cache_lookup lat lng (nearest_cache s)) as [[x rest]|] eqn:Hc.
  - injection H as <- <-. simpl.
    rewrite (cache_lookup_Some _ _ _ _ _ Hc). by eexists.
  - destruct (ox_nearest_nodes L (graph s) lng lat) as [n|] eqn:Hn; [|done].
    injection H as <- <-. simpl.
    destruct (key_eqb lat lng (lat, lng, n)); [by eexists|].
    rewrite (cache_lookup_take _ _ _ _ Hc), Hn. by eexists.
Qed.

(** C3, amended. When both lookups return, [find_shortest_path] returns
    either a path from the node [get_nearest_node] gave for the origin to
    the one it gave for the destination, of least cumulative travel time
    as networkx promises, or [None] when no walk joins the two; each
    resolved node is the memoized one when the pair is in the table, and
    the nearest node of the graph in memory otherwise. When a lookup
    raises, [find_shortest_path] raises the same exception, unless it is
    of one of the two classes of the [except] clause: then it returns
    [None]. *)
Theorem find_shortest_path_between_resolved_nodes lat lng lat' lng' s :
  (forall g a s1 b s2,
     graph s = Some g ->
     get_nearest_node L [lat; lng] s = (Ok a, s1) ->
     get_nearest_node L [lat'; lng'] s1 = (Ok b, s2) ->
     nx_contract L g a b ->
     (memoized lat lng s = Some a \/
      memoized lat lng s = None /\
      ox_nearest_nodes L (Some g) lng lat = Ok a) /\
     (memoized lat' lng' s1 = Some b \/
      memoized lat' lng' s1 = None /\
      ox_nearest_nodes L (Some g) lng' lat' = Ok b) /\
     ((exists p,
         find_shortest_path L [lat; lng] [lat'; lng'] s = (Ok (Some p), s2) /\
         head p = Some a /\ last p = Some b /\ shortest_walk g a b p) \/
      (find_shortest_path L [lat; lng] [lat'; lng'] s = (Ok None, s2) /\
       forall p c, ~ walk g a b p c))) /\
  (forall e s1,
     get_nearest_node L [lat; lng] s = (Raise e, s1) ->
     find_shortest_path L [lat; lng] [lat'; lng'] s =
     match exn_kind_of e with
     | NetworkXNoPath | NodeNotFound => (Ok None, s1)
     | _ => (Raise e, s1)
     end) /\
  (forall a s1 e s2,
     get_nearest_node L [lat; lng] s = (Ok a, s1) ->
     get_nearest_node L [lat'; lng'] s1 = (Raise e, s2) ->
     find_shortest_path L [lat; lng] [lat'; lng'] s =
     match exn_kind_of e with
     | NetworkXNoPath | NodeNotFound => (Ok None, s2)
     | _ => (Raise e, s2)
     end).
Proof.
  split_and!.
  - intros g a s1 b s2 Hg Ha Hb Hnx.
    assert (Hg1 : graph s1 = Some g).
    { pose proof (get_nearest_node_frame L [lat; lng] s) as (H1 & _).
      rewrite Ha in H1. simpl in H1. congruence. }
    split; [|split].
    + rewrite <- Hg. by eapply get_nearest_node_Ok.
    + rewrite <- Hg1. by eapply get_nearest_node_Ok.
    + rewrite (find_shortest_path_eq _ _ _ _ _ _ _ Ha Hb), Hg.
      unfold nx_contract in Hnx.
      destruct (nx_shortest_path L (Some g) a b) as [p|e].
      * left. exists p. destruct Hnx as (c & Hw & Hmin).
        destruct (walk_ends _ _ _ _ _ Hw). split_and!; try done.
        by exists c.
      * right. destruct Hnx as [[-> | ->] Hno]; by split.
  - intros e s1 Ha.
    unfold find_shortest_path, try_except_kinds, try_except.
    rewrite (bind_eq_Raise _ _ _ _ _ Ha). simpl.
    by destruct (exn_kind_of e).
  - intros a s1 e s2 Ha Hb.
    unfold find_shortest_path, try_except_kinds, try_except.
    rewrite (bind_eq_Ok _ _ _ _ _ Ha), (bind_eq_Raise _ _ _ _ _ Hb). simpl.
    by destruct (exn_kind_of e).
Qed.

End PathProofs.

(** *** The handler *)

Section HandlerProofs.
Context (L : Libs).
Import RouteService.

(** C6. A request whose two points resolve to nodes that no walk of the
    graph joins (one of them may not be a node of it at all) is answered
    404 with the fixed message, networkx keeping its promise. *)
Theorem no_path_gives_404 data o origin d destination s g a s1 b s2 :
  getitem data "origin" = Ok o -> py_tuple o = Ok origin ->
  getitem data "destination" = Ok d -> py_tuple d = Ok destination ->
  graph s = Some g ->
  get_nearest_node L origin s = (Ok a, s1) ->
  get_nearest_node L destination s1 = (Ok b, s2) ->
  nx_contract L g a b ->
  (forall p c, ~ walk g a b p c) ->
  shortest_path L (Ok data) s =
  (Ok (VDict [("error", VStr "No path found between the given points")], 404),
   s2).
Proof.
  intros Ho Hto Hd Htd Hg Ha Hb Hnx Hno.
  unfold shortest_path, try_except, shortest_path_try, bind, lift. simpl.
  rewrite Ho, Hto, Hd, Htd.
  rewrite (find_shortest_path_eq _ _ _ _ _ _ _ _ Ha Hb), Hg.
  unfold nx_contract in Hnx.
  destruct (nx_shortest_path L (Some g) a b) as [p|e].
  - destruct Hnx as (c & Hw & _). by destruct (Hno p c).
  - by destruct Hnx as [[-> | ->] _].
Qed.

(** C8. Whatever exception the handling raises is answered 500 with the
    exception's text as the error: so is a body that cannot be read, and
    a body without [origin], whose text is the missing key. The handler
    itself never raises. *)
Theorem shortest_path_answers_500_on_exception req s :
  (forall e s', shortest_path_try L req s = (Raise e, s') ->
     shortest_path L req s =
     (Ok (VDict [("error", VStr (exn_str e))], 500), s')) /\
  (forall e, req = Raise e ->
     shortest_path L req s =
     (Ok (VDict [("error", VStr (exn_str e))], 500), s)) /\
  (forall d, req = Ok (VDict d) ->
     find (fun kv => String.eqb kv.1 "origin") d = None ->
     shortest_path L req s =
     (Ok (VDict [("error", VStr "'origin'")], 500), s)) /\
  (exists body status s', shortest_path L req s = (Ok (body, status), s')).
Proof.
  split_and!.
  - intros e s' H. unfold shortest_path, try_except. by rewrite H.
  - by intros e ->.
  - intros d -> Hd.
    unfold shortest_path, try_except, shortest_path_try, bind, lift. simpl.
    by rewrite Hd.
  - unfold shortest_path, try_except.
    destruct (shortest_path_try L req s) as [[[body status]|e] s'];
      by eexists _, _, _.
Qed.

Lemma edge_attr_key0 g u v k x :
  edge_attr L (Some g) u v k = Ok x -> key0_attr g u v k x.
Proof.
  unfold edge_attr. destruct (g_nodes g !! u); [|done].
  set (uv := filter _ (g_edges g)).
  destruct uv as [|e0 uv'] eqn:Huv; [done|]. rewrite <- Huv.
  destruct (find _ uv) as [e|] eqn:Hf; [|done].
  apply find_some in Hf as [Hin Hk].
  destruct (e_data e !! k) as [y|] eqn:Hy; [|done]. intros [= ->].
  apply list_elem_of_In, list_elem_of_filter in Hin as [Huve Hin].
  apply bool_decide_unpack in Huve as [? ?].
  exists e. split_and!; try done. by apply Z.eqb_eq.
Qed.

Lemma edge_floats_key0 g k ps fs :
  edge_floats L (Some g) k ps = Ok fs ->
  Forall2 (fun uv f => exists x, key0_attr g uv.1 uv.2 k x /\
                                 py_float L x = Ok f) ps fs.
Proof.
  revert fs. induction ps as [|[u v] ps IH]; intros fs; cbn [edge_floats].
  - intros [= <-]. constructor.
  - destruct (edge_attr L (Some g) u v k) as [x|] eqn:Hx; [|discriminate].
    destruct (py_float L x) as [f|] eqn:Hf; [|discriminate].
    destruct (edge_floats L (Some g) k ps) as [fs'|]; [|discriminate].
    intros [= <-]. constructor; [|by apply IH].
    exists x. split; [by apply edge_attr_key0|done].
Qed.

(** The pairs summed over are the pairs of neighbours in the path. *)
Lemma consecutive_lookup path i u v :
  consecutive path !! i = Some (u, v) <->
  path !! i = Some u /\ path !! (S i) = Some v.
Proof.
  revert i. induction path as [|a [|b path] IH]; intros i.
  - simpl. split; [done|]. by intros [? _].
  - simpl. split; [done|]. destruct i; by intros [_ ?].
  - change (consecutive (a :: b :: path))
      with ((a, b) :: consecutive (b :: path)).
    destruct i as [|i]; simpl.
    + split; [by intros [= -> ->]|by intros [[= ->] [= ->]]].
    + apply IH.
Qed.

Lemma lift_Ok {S A} (r : res A) (s s1 : S) a :
  lift r s = (Ok a, s1) -> r = Ok a /\ s1 = s.
Proof. unfold lift. by intros [= -> ->]. Qed.

Lemma consecutive_length path :
  length (consecutive path) = Nat.pred (length path).
Proof.
  induction path as [|a [|b path] IH]; [done|done|].
  change (consecutive (a :: b :: path))
    with ((a, b) :: consecutive (b :: path)).
  simpl in *. by rewrite IH.
Qed.

Lemma fold_adds_up fs : adds_up fs (fold_left PrimFloat.add fs 0%float).
Proof.
  induction fs as [|x fs IH] using rev_ind; [constructor|].
  rewrite fold_left_app. simpl. by constructor.
Qed.

Lemma fold_adds_up_corrected x rest :
  adds_up_corrected (x :: rest)
    (fold_left cs_add rest ((0 + x)%float, 0%float)).1
    (fold_left cs_add rest ((0 + x)%float, 0%float)).2.
Proof.
  induction rest as [|y rest IH] using rev_ind; [constructor|].
  rewrite fold_left_app. simpl.
  destruct (fold_left cs_add rest ((0 + x)%float, 0%float)) as [t c].
  simpl in *. rewrite app_comm_cons.
  pose proof (adds_up_corrected_snoc _ _ _ y IH) as H.
  by destruct (PrimFloat.leb (abs y) (abs t)).
Qed.

(** What the handler's [sum] returns is the sum of the list. *)
Lemma py_sum_is_sum fs : is_sum L fs (py_sum L fs).
Proof.
  destruct fs as [|x rest]; [done|]. unfold is_sum, py_sum.
  destruct (sum_is_compensated L).
  - pose proof (fold_adds_up_corrected x rest) as H.
    destruct (fold_left cs_add rest ((0 + x)%float, 0%float)) as [t c].
    by exists t, c.
  - exists (fold_left PrimFloat.add (x :: rest) 0%float).
    split; [apply fold_adds_up|done].
Qed.

(** C2. The statistics of a 200 answer are the sums of as many terms as
    the path that [find_shortest_path] returned has pairs of neighbours:
    the term of the pair [(path[i], path[i + 1])] is the [length], and for
    the time the [travel_time], of an edge with key 0 from the first to
    the second. *)
Theorem route_stats_sum_key0_edges req s body s' :
  shortest_path L req s = (Ok (body, 200), s') ->
  exists g origin destination s1 path coords lengths times
         total_distance estimated_time,
    graph s = Some g /\
    find_shortest_path L origin destination s = (Ok (Some path), s1) /\
    path_coords L g path = Ok coords /\
    length lengths = Nat.pred (length path) /\
    length times = Nat.pred (length path) /\
    (forall i u v, path !! i = Some u -> path !! S i = Some v ->
       exists x f, key0_attr g u v "length" x /\ py_float L x = Ok f /\
                   lengths !! i = Some f) /\
    (forall i u v, path !! i = Some u -> path !! S i = Some v ->
       exists x f, key0_attr g u v "travel_time" x /\ py_float L x = Ok f /\
                   times !! i = Some f) /\
    is_sum L lengths total_distance /\
    is_sum L times estimated_time /\
    body = VDict [("path", coords_json coords);
                  ("stats", VDict [("total_distance", total_distance);
                                   ("estimated_time", estimated_time)])].
Proof.
  unfold shortest_path, try_except.
  destruct (shortest_path_try L req s) as [[r|e] s0] eqn:H;
    [|unfold ret; discriminate].
  intros [= -> ->]. unfold shortest_path_try in H.
  apply bind_Ok in H as (data & ? & [_ ->]%lift_Ok & H).
  apply bind_Ok in H as (o & ? & [_ ->]%lift_Ok & H).
  apply bind_Ok in H as (origin & ? & [_ ->]%lift_Ok & H).
  apply bind_Ok in H as (d & ? & [_ ->]%lift_Ok & H).
  apply bind_Ok in H as (destination & ? & [_ ->]%lift_Ok & H).
  apply bind_Ok in H as (path & s1 & Hpath & H).
  destruct path as [[|n p]|]; try done.
  apply bind_Ok in H as (m & s2 & Hm & H).
  pose proof (create_route_map_same L origin (Some (n :: p)) s1) as Hs2.
  rewrite Hm in Hs2. simpl in Hs2. subst s2.
  destruct m as [[[|c html]|] [coords|]]; try done.
  apply bind_Ok in H as (s2 & ? & [= <- <-] & H).
  apply bind_Ok in H as (lengths & ? & [Hl ->]%lift_Ok & H).
  apply bind_Ok in H as (times & ? & [Ht ->]%lift_Ok & H).
  injection H as <- <-.
  pose proof (find_shortest_path_frame L origin destination s) as (Hg & _).
  rewrite Hpath in Hg. simpl in Hg.
  unfold create_route_map, try_except, bind, get, lift, ret, raise in Hm.
  destruct (graph s1) as [g|] eqn:Hg1; [|done]. cbv beta iota in Hm.
  destruct (path_coords L g (n :: p)) as [cs|] eqn:Hcs; [|done].
  destruct (tuple_item origin 0); [|done].
  destruct (tuple_item origin 1); [|done].
  destruct (folium_repr_html L _ _ cs); [|done].
  injection Hm as _ ->.
  assert (Hterms : forall k fs,
    edge_floats L (Some g) k (consecutive (n :: p)) = Ok fs ->
    length fs = Nat.pred (length (n :: p)) /\
    forall i u v, (n :: p) !! i = Some u -> (n :: p) !! S i = Some v ->
      exists x f, key0_attr g u v k x /\ py_float L x = Ok f /\
                  fs !! i = Some f).
  { intros k fs Hfs%edge_floats_key0. split.
    - rewrite <- consecutive_length. symmetry. by eapply Forall2_length.
    - intros i u v Hu Hv.
      assert (Hi : consecutive (n :: p) !! i = Some (u, v))
        by (by apply consecutive_lookup).
      destruct (Forall2_lookup_l _ _ _ _ _ Hfs Hi) as (f & Hf & x & Hx & Hpf).
      by exists x, f. }
  destruct (Hterms _ _ Hl) as [Hll Hlt].
  destruct (Hterms _ _ Ht) as [Htl Htt].
  exists g, origin, destination, s1, (n :: p), coords, lengths, times,
    (py_sum L lengths), (py_sum L times).
  split_and!; try done; apply py_sum_is_sum.
Qed.

(** C7, amended. A request whose origin and destination are one and the
    same point is answered 200 with a single coordinate and both
    statistics zero when it is served: [get_nearest_node] resolves the
    point to a node of the graph in memory that has [y] and [x], networkx
    returns the one-node path from that node to itself, and folium renders
    a map that is not the empty string. The coordinate is that node's. *)
Theorem same_point_gives_single_node_route
    data o lat lng s g a s1 y x html :
  getitem data "origin" = Ok o ->
  getitem data "destination" = Ok o ->
  py_tuple o = Ok [lat; lng] ->
  graph s = Some g ->
  get_nearest_node L [lat; lng] s = (Ok a, s1) ->
  nx_shortest_path L (Some g) a a = Ok [a] ->
  node_attr L g a "y" = Ok y ->
  node_attr L g a "x" = Ok x ->
  folium_repr_html L lat lng [(y, x)] = Ok html ->
  html <> "" ->
  exists s2,
    shortest_path L (Ok data) s =
    (Ok (VDict [("path", VList [VList [y; x]]);
                ("stats", VDict [("total_distance", VInt 0);
                                 ("estimated_time", VInt 0)])], 200), s2).
Proof.
  intros Ho Hd Ht Hg Ha Hnx Hy Hx Hhtml Hne.
  destruct (get_nearest_node_again _ _ _ _ _ _ Ha) as [s2 Hb].
  assert (Hg2 : graph s2 = Some g).
  { pose proof (get_nearest_node_frame L [lat; lng] s) as (H1 & _).
    pose proof (get_nearest_node_frame L [lat; lng] s1) as (H2 & _).
    rewrite Ha in H1. rewrite Hb in H2. simpl in *. congruence. }
  exists s2.
  unfold shortest_path, try_except, shortest_path_try, bind, lift. simpl.
  rewrite Ho, Hd, Ht.
  rewrite (find_shortest_path_eq _ _ _ _ _ _ _ _ Ha Hb), Hg, Hnx.
  unfold create_route_map, try_except, bind, get, lift, ret. simpl.
  rewrite Hg2. simpl. rewrite Hy, Hx. unfold tuple_item. simpl.
  rewrite Hhtml. destruct html; [done|]. done.
Qed.

End HandlerProofs.

(** *** The refresh *)

Section RefreshProofs.
Context (L : Libs) (E : Env).
Import RouteService.

Lemma should_update_graph_eq s :
  should_update_graph E s =
  match graph_falsy (graph s), last_update s with
  | false, Some t0 =>
      (Ok (Z.ltb (update_interval * 1000000) (datetime_now E (n_now s) - t0)),
       tick_now s)
  | _, _ => (Ok true, s)
  end.
Proof.
  unfold should_update_graph, bind, get, now, ret.
  by destruct (graph_falsy (graph s)), (last_update s).
Qed.

Lemma should_update_graph_due s :
  (should_update_graph E s).1 = Ok true <-> reload_due E s.
Proof.
  rewrite should_update_graph_eq. unfold reload_due.
  destruct (graph_falsy (graph s)), (last_update s) as [t0|]; simpl;
    try (split; [intros _|done]; auto; fail).
  split.
  - intros [= H%Z.ltb_lt]. right; right. by exists t0.
  - intros [?|[?|(t & [= <-] & H%Z.ltb_lt)]]; try done. by rewrite H.
Qed.

Lemma should_update_graph_not_due s :
  ~ reload_due E s -> should_update_graph E s = (Ok false, tick_now s).
Proof.
  intros H. pose proof (should_update_graph_due s) as Hd.
  rewrite should_update_graph_eq in *.
  destruct (graph_falsy (graph s)), (last_update s) as [t0|]; simpl in *;
    try (destruct H; by apply Hd).
  destruct (Z.ltb _ _); [destruct H; by apply Hd|done].
Qed.

Lemma should_update_graph_is_due s :
  reload_due E s -> should_update_graph E s = (Ok true, checked E s).
Proof.
  intros H%should_update_graph_due. unfold checked.
  destruct (should_update_graph E s) as [r s0]. simpl in *. by subst.
Qed.

(** The check reads the clock at most; the rest of the state is as it
    was. *)
Lemma checked_same s :
  graph (checked E s) = graph s /\ last_update (checked E s) = last_update s /\
  cache_file (checked E s) = cache_file s /\
  nearest_cache (checked E s) = nearest_cache s /\
  n_place (checked E s) = n_place s /\ n_bbox (checked E s) = n_bbox s /\
  n_dump (checked E s) = n_dump s.
Proof.
  unfold checked. rewrite should_update_graph_eq.
  destruct (graph_falsy (graph s)), (last_update s) eqn:Hl; by repeat split.
Qed.

Lemma load_graph_eq s :
  load_graph L E s =
  match should_update_graph E s with
  | (Ok false, s0) => (Ok tt, s0)
  | (Ok true, s0) =>
      match cache_file s0 with
      | Some (Pickled g) => (Ok tt, stamped E (set_graph g s0))
      | Some Corrupt =>
          if graph_falsy (graph s0) then download_and_cache_graph L E s0
          else (Ok tt, s0)
      | None =>
          match download_and_cache_graph L E s0 with
          | (Ok _, s1) => (Ok tt, stamped E s1)
          | (Raise _, s1) =>
              if graph_falsy (graph s1) then download_and_cache_graph L E s1
              else (Ok tt, s1)
          end
      end
  | (Raise e, s0) => (Raise e, s0)
  end.
Proof.
  unfold load_graph, bind at 1.
  destruct (should_update_graph E s) as [[[|]|e] s0]; try done.
  unfold try_except, bind, get, lift, modify, now, ret, stamped.
  destruct (cache_file s0) as [[g|]|]; simpl; try done.
  - by destruct (graph_falsy (graph s0)).
  - destruct (download_and_cache_graph L E s0) as [[[]|e] s1]; [done|].
    by destruct (graph_falsy (graph s1)).
Qed.

(** C4, amended. [load_graph] reloads only when a reload is due: no graph
    in memory, no timestamp, or a timestamp older than the interval. It
    then takes the graph from the cache file when the file is there, and
    downloads when it is not. When the load raises, it downloads if no
    graph is in memory, and otherwise returns with the graph, the
    timestamp and the file as they were. When the download raises, it
    downloads once more if no graph is in memory once that download has
    raised, and otherwise returns normally, in the state that download
    left. A download that succeeds leaves in memory, and in the cache
    file, the graph with every edge annotated. The timestamp is set when
    the first attempt did not raise; no download sets it. *)
Theorem load_graph_policy s :
  (~ reload_due E s -> load_graph L E s = (Ok tt, tick_now s)) /\
  (reload_due E s ->
   match cache_file s with
   | Some (Pickled g) =>
       load_graph L E s = (Ok tt, stamped E (set_graph g (checked E s)))
   | Some Corrupt =>
       load_graph L E s =
       if graph_falsy (graph s)
       then download_and_cache_graph L E (checked E s)
       else (Ok tt, checked E s)
   | None =>
       load_graph L E s =
       match download_and_cache_graph L E (checked E s) with
       | (Ok _, s1) => (Ok tt, stamped E s1)
       | (Raise _, s1) =>
           if graph_falsy (graph s1) then download_and_cache_graph L E s1
           else (Ok tt, s1)
       end
   end) /\
  (forall s0 s', download_and_cache_graph L E s0 = (Ok tt, s') ->
     exists g0 g,
       (ox_graph_from_place E (n_place s0) = Ok g0 \/
        ox_graph_from_bbox E (n_bbox s0) = Ok g0) /\
       graph s' = Some g /\ cache_file s' = Some (Pickled (Some g)) /\
       g_nodes g = g_nodes g0 /\
       Forall2 (edge_annotated L) (g_edges g0) (g_edges g)) /\
  (forall s0,
     last_update (download_and_cache_graph L E s0).2 = last_update s0) /\
  (graph (checked E s) = graph s /\
   last_update (checked E s) = last_update s /\
   cache_file (checked E s) = cache_file s).
Proof.
  split_and!.
  - intros H. by rewrite load_graph_eq, (should_update_graph_not_due _ H).
  - intros H. rewrite load_graph_eq, (should_update_graph_is_due _ H).
    destruct (checked_same s) as (Hg & _ & Hf & _). rewrite Hf, Hg.
    by destruct (cache_file s) as [[g|]|].
  - intros s0 s'. apply download_and_cache_graph_ok.
  - intros s0. apply (download_and_cache_graph_counts L E s0).
  - apply checked_same.
  - apply checked_same.
  - apply checked_same.
Qed.


End RefreshProofs.

(** *** More on the annotation *)

Section MoreAnnotation.
Context (L : Libs).

Lemma head_first_item {A} (l : list A) x :
  head l = Some x -> first_item l = Ok x.
Proof. destruct l; simpl; congruence. Qed.

Lemma annotate_edge_complete d d' :
  annotated L d d' -> annotate_edge L d = (Ok tt, d').
Proof.
  intros (v & lv & speed & length & Hn & Hl & Hpl & Hps & Hnz & ->).
  unfold annotate_edge, bind, get, setattr, getattr, modify, lift, ret,
    py_truediv.
  unfold normalized_speed in Hn.
  destruct (d !! "maxspeed") as [raw|] eqn:Hraw; [destruct raw|].
  all: try destruct Hn as (x & f & Hx%head_first_item & Hf & ->).
  all: try subst v.
  all: simpl in Hps; simplify_map_eq/=.
  all: rewrite ?Hx; simpl; rewrite ?Hf; simpl; simplify_map_eq/=.
  all: rewrite ?Hpl; simpl; rewrite ?Hps; simpl; rewrite ?Hnz.
  all: try by rewrite ?(insert_id d "maxspeed" _ Hraw).
  vm_compute in Hps. injection Hps as <-. reflexivity.
Qed.

(** X1. [annotate_edge] returns exactly on the dicts that can be
    annotated, and then leaves the annotated dict: on every other dict it
    raises. *)
Theorem annotate_edge_returns_iff d d' :
  annotate_edge L d = (Ok tt, d') <-> annotated L d d'.
Proof. split; [apply annotate_edge_ok|apply annotate_edge_complete]. Qed.

(** X2. Whether it returns or raises, [annotate_edge] writes no attribute
    but [maxspeed] and [travel_time], and removes none. *)
Theorem annotate_edge_touches_two_keys d k :
  k <> "maxspeed" -> k <> "travel_time" ->
  (annotate_edge L d).2 !! k = d !! k.
Proof.
  intros H1 H2.
  unfold annotate_edge, bind, get, setattr, getattr, modify, lift, ret,
    py_truediv.
  repeat (case_match; simplify_eq/=); by rewrite ?lookup_insert_ne by done.
Qed.

Lemma annotated_speed d d' :
  annotated L d d' ->
  exists v speed length,
    d' !! "maxspeed" = Some v /\ is_number v /\ py_float L v = Ok speed /\
    (exists lv, d' !! "length" = Some lv /\ py_float L lv = Ok length) /\
    PrimFloat.eqb (speed * 1000 / 3600) 0 = false /\
    d' !! "travel_time" = Some (VFloat (length / (speed * 1000 / 3600))).
Proof.
  intros (v & lv & speed & length & Hn & Hl & Hpl & Hps & Hnz & ->).
  exists v, speed, length. simplify_map_eq/=. split_and!; try done.
  - unfold normalized_speed in Hn.
    destruct (d !! "maxspeed") as [[]|]; simplify_eq/=; try done.
    + by destruct Hn as (? & ? & _ & _ & ->).
    + by destruct Hn as (? & ? & _ & _ & ->).
  - by exists lv.
Qed.

(** X3. Annotating an annotated dict changes nothing: the loop body is
    idempotent. *)
Theorem annotate_edge_idempotent d d' :
  annotate_edge L d = (Ok tt, d') -> annotate_edge L d' = (Ok tt, d').
Proof.
  intros H%annotate_edge_ok. apply annotate_edge_complete.
  destruct (annotated_speed _ _ H)
    as (v & speed & length & Hv & Hnum & Hps & (lv & Hl & Hpl) & Hnz & Ht).
  exists v, lv, speed, length. split_and!; try done.
  - rewrite Hv. by destruct v.
  - by rewrite (insert_id _ _ _ Hv), (insert_id _ _ _ Ht).
Qed.

(** X4. Whether the loop ends or raises, the graph keeps its edges: the
    same number, in the same order, with the same endpoints and keys. *)
Theorem annotate_edges_keeps_edges es :
  Forall2 same_edge es (annotate_edges L es).2.
Proof.
  induction es as [|e es IH]; simpl; [constructor|].
  destruct (annotate_edge L (e_data e)) as [[[]|x] d].
  - destruct (annotate_edges L es) as [r es']. simpl in *.
    constructor; [done|exact IH].
  - simpl. constructor; [done|]. clear. induction es; by constructor.
Qed.

(** X5. The loop stops at the first edge whose annotation raises: the
    edges before it are annotated, that edge keeps what was written to it
    before the exception, and the edges after it are untouched. *)
Theorem annotate_edges_stops_at_first_failure es x es' :
  annotate_edges L es = (Raise x, es') ->
  exists (before before' : list edge) e after,
    es = (before ++ e :: after)%list /\
    annotate_edges L before = (Ok tt, before') /\
    (annotate_edge L (e_data e)).1 = Raise x /\
    es' = (before' ++ with_data e (annotate_edge L (e_data e)).2 :: after)%list.
Proof.
  revert es'. induction es as [|e es IH]; intros es'; simpl; [done|].
  destruct (annotate_edge L (e_data e)) as [[[]|y] d] eqn:He.
  - destruct (annotate_edges L es) as [r es1] eqn:Hes.
    intros [= -> <-].
    destruct (IH _ eq_refl) as (b & b' & e1 & a & -> & Hb & He1 & ->).
    exists (e :: b), (with_data e d :: b'), e1, a. simpl.
    by rewrite He, Hb.
  - intros [= <- <-]. exists [], [], e, es. by rewrite He.
Qed.

End MoreAnnotation.

(** *** More on downloads and refreshes *)

Section MoreRefresh.
Context (L : Libs) (E : Env).
Import RouteService.


(** X7. The cache file gives back what a download wrote: once a download
    has returned, a refresh that is due and finds that file puts the very
    same graph in memory and makes no network call. *)
Theorem reload_after_download_reads_the_file s s' s2 :
  download_and_cache_graph L E s = (Ok tt, s') ->
  cache_file s2 = cache_file s' ->
  reload_due E s2 ->
  load_graph L E s2 = (Ok tt, stamped E (set_graph (graph s') (checked E s2))).
Proof.
  intros (g0 & g & _ & Hg & Hf & _)%download_and_cache_graph_ok Hsame Hdue.
  rewrite load_graph_eq, (should_update_graph_is_due _ _ Hdue).
  destruct (checked_same E s2) as (_ & _ & Hf2 & _).
  by rewrite Hf2, Hsame, Hf, Hg.
Qed.

(** X8. One call of [load_graph] makes at most two queries by place name,
    two by bounding box and four writes of the cache file, and reads the
    clock at most twice; none when no reload is due, but for one reading
    of the clock. *)
Theorem load_graph_is_bounded s :
  let s' := (load_graph L E s).2 in
  (n_place s <= n_place s' <= n_place s + 2)%nat /\
  (n_bbox s <= n_bbox s' <= n_bbox s + 2)%nat /\
  (n_dump s <= n_dump s' <= n_dump s + 4)%nat /\
  (n_now s <= n_now s' <= n_now s + 2)%nat /\
  (~ reload_due E s ->
   n_place s' = n_place s /\ n_bbox s' = n_bbox s /\ n_dump s' = n_dump s /\
   n_now s' = S (n_now s)).
Proof.
  assert (Hc : (n_now s <= n_now (checked E s) <= S (n_now s))%nat).
  { unfold checked. rewrite should_update_graph_eq.
    destruct (graph_falsy (graph s)), (last_update s); simpl; lia. }
  destruct (checked_same E s) as (_ & _ & Hf & _ & Hp & Hb & Hd).
  assert (Hdec : reload_due E s \/ ~ reload_due E s).
  { pose proof (should_update_graph_due E s) as Hiff.
    destruct ((should_update_graph E s).1) as [[|]|x] eqn:Hr.
    - left. by apply Hiff.
    - right. intros H%Hiff. discriminate.
    - right. intros H%Hiff. discriminate. }
  destruct Hdec as [Hdue|Hnot].
  2:{ rewrite load_graph_eq, (should_update_graph_not_due _ _ Hnot). simpl.
      split_and!; lia. }
  rewrite load_graph_eq, (should_update_graph_is_due _ _ Hdue).
  set (s0 := checked E s) in *.
  pose proof (download_and_cache_graph_counts L E s0) as H0. simpl in H0.
  destruct (cache_file s0) as [[g|]|]; simpl.
  - split_and!; try lia. intros Hn. by destruct (Hn Hdue).
  - destruct (graph_falsy (graph s0)); simpl; split_and!; try lia.
    all: intros Hn; by destruct (Hn Hdue).
  - destruct (download_and_cache_graph L E s0) as [[[]|x] s1]; simpl in *.
    + split_and!; try lia. intros Hn. by destruct (Hn Hdue).
    + pose proof (download_and_cache_graph_counts L E s1) as H1. simpl in H1.
      destruct (graph_falsy (graph s1)); simpl; split_and!; try lia.
      all: intros Hn; by destruct (Hn Hdue).
Qed.

(** X9. A refresh whose first attempt did not raise stamps the last time
    it read, and as long as the clock is within the interval of that stamp
    and the graph is not empty the next [load_graph] does nothing but read
    the clock. *)
Theorem stamped_refresh_rests s :
  reload_due E s ->
  (exists g, cache_file s = Some (Pickled g)) \/
  (cache_file s = None /\
   (download_and_cache_graph L E (checked E s)).1 = Ok tt) ->
  let s1 := (load_graph L E s).2 in
  graph_falsy (graph s1) = false ->
  datetime_now E (n_now s1) - datetime_now E (Nat.pred (n_now s1))
    <= update_interval * 1000000 ->
  last_update s1 = Some (datetime_now E (Nat.pred (n_now s1))) /\
  load_graph L E s1 = (Ok tt, tick_now s1).
Proof.
  intros Hdue Hfirst s1 Hg Hclock.
  assert (Hs1 : exists s0, s1 = stamped E s0) .
  { unfold s1. rewrite load_graph_eq, (should_update_graph_is_due _ _ Hdue).
    destruct (checked_same E s) as (_ & _ & Hf & _). rewrite Hf.
    destruct Hfirst as [[g ->]|[-> Hd]]; [by eexists|].
    destruct (download_and_cache_graph L E (checked E s)) as [[[]|x] s0];
      [by eexists|done]. }
  destruct Hs1 as [s0 Hs1]. rewrite Hs1 in *. simpl in *.
  split; [done|].
  rewrite load_graph_eq, should_update_graph_not_due; [done|].
  unfold reload_due. simpl. intros [H|[H|(t0 & [= <-] & H)]]; try done.
  - by rewrite Hg in H.
  - lia.
Qed.


Lemma periodic_graph_update_add m n s :
  periodic_graph_update L E (m + n) s =
  bind (periodic_graph_update L E m)
       (fun _ => periodic_graph_update L E n) s.
Proof.
  revert s. induction m as [|m IH]; intros s; simpl; [done|].
  unfold periodic_graph_update_round, bind.
  destruct (load_graph L E s) as [[[]|e] s1]; [|done].
  rewrite IH. by unfold bind.
Qed.

(** X11. An exception that leaves [load_graph] ends the refresher: however
    many rounds were still to come, the state stays the one of the round
    that raised. *)
Theorem periodic_graph_update_dies m n s e s' :
  periodic_graph_update L E m s = (Raise e, s') ->
  (m <= n)%nat ->
  periodic_graph_update L E n s = (Raise e, s').
Proof.
  intros H Hle. replace n with (m + (n - m))%nat by lia.
  rewrite periodic_graph_update_add. unfold bind. by rewrite H.
Qed.

End MoreRefresh.

(** *** More on the memoization table *)

Section MoreTable.
Context (L : Libs).
Import RouteService.

Lemma cache_lookup_perm lat lng c x rest :
  cache_lookup lat lng c = Some (x, rest) -> x :: rest ≡ₚ c.
Proof.
  revert x rest. induction c as [|y c IH]; intros x rest; simpl; [done|].
  destruct (key_eqb lat lng y).
  - by intros [= <- <-].
  - destruct (cache_lookup lat lng c) as [[z r]|]; [|done].
    intros [= <- <-]. rewrite <- (IH z r eq_refl). apply perm_swap.
Qed.

Lemma bound_kept_refl s : bound_kept s s.
Proof. by intros H. Qed.

Lemma bound_kept_trans s1 s2 s3 :
  bound_kept s1 s2 -> bound_kept s2 s3 -> bound_kept s1 s3.
Proof. unfold bound_kept. auto. Qed.

Lemma get_nearest_node_bound args :
  keeps bound_kept (get_nearest_node L args).
Proof.
  intros s Hb. unfold table_bounded in *. unfold get_nearest_node.
  destruct (find _ args); [done|].
  destruct args as [|lat [|lng [|? ?]]]; try done.
  unfold bind, get, modify, lift, ret.
  destruct (cache_lookup lat lng (nearest_cache s)) as [[x rest]|] eqn:Hc.
  - apply cache_lookup_perm, Permutation_length in Hc. simpl in *. lia.
  - destruct (ox_nearest_nodes L (graph s) lng lat); [|done].
    cbv [snd set_nearest_cache tick_nearest nearest_cache].
    rewrite length_take. lia.
Qed.

Lemma shortest_path_bound req : keeps bound_kept (shortest_path L req).
Proof.
  unfold shortest_path, shortest_path_try, find_shortest_path.
  repeat first [keeps_step bound_kept_refl bound_kept_trans | case_match].
  all: first [ apply get_nearest_node_bound
             | intros s; rewrite create_route_map_same;
               apply bound_kept_refl ].
Qed.

(** X12. The memoization table never holds more than 1000 entries: not
    after construction, and not after any sequence of requests and
    refreshes. *)
Theorem table_stays_bounded E cache evs :
  table_bounded (run_all L E evs (__init__ L E cache).2).
Proof.
  assert (Hstep : forall ev s, table_bounded s -> table_bounded (run L E ev s)).
  { intros [req|] s Hb; simpl.
    - by apply shortest_path_bound.
    - unfold table_bounded.
      by rewrite (proj1 (load_graph_keeps_table L E s)). }
  assert (Hall : forall s,
            table_bounded s -> table_bounded (run_all L E evs s)).
  { unfold run_all. induction evs as [|ev evs IH]; intros s Hb; simpl; auto. }
  apply Hall. unfold __init__, table_bounded.
  rewrite (proj1 (load_graph_keeps_table L E (init_state cache))).
  simpl. unfold maxsize. lia.
Qed.


(** X14. An exception of the search is not memoized: the call raises it
    with the table as it was, and the same pair is searched again by the
    next call, on the graph then in memory. *)
Theorem failed_search_is_not_memoized lat lng s e :
  hashable lat = true -> hashable lng = true ->
  memoized lat lng s = None ->
  ox_nearest_nodes L (graph s) lng lat = Raise e ->
  get_nearest_node L [lat; lng] s = (Raise e, tick_nearest s) /\
  forall s2, nearest_cache s2 = nearest_cache s ->
    get_nearest_node L [lat; lng] s2 =
    match ox_nearest_nodes L (graph s2) lng lat with
    | Ok n =>
        (Ok n, set_nearest_cache
                 (take maxsize ((lat, lng, n) :: nearest_cache s2))
                 (tick_nearest s2))
    | Raise e2 => (Raise e2, tick_nearest s2)
    end.
Proof.
  intros Hlat Hlng Hm He. unfold memoized in Hm.
  destruct (cache_lookup lat lng (nearest_cache s)) as [[x rest]|] eqn:Hc;
    [done|].
  split.
  - by rewrite get_nearest_node_eq, Hc, He.
  - intros s2 Hs2. by rewrite get_nearest_node_eq, Hs2, Hc.
Qed.

Lemma get_nearest_node_rejects args s :
  length args <> 2%nat \/ Exists (fun v => hashable v = false) args ->
  exists e, get_nearest_node L args s = (Raise e, s) /\
            exn_kind_of e = TypeError.
Proof.
  intros Hbad. unfold get_nearest_node.
  destruct (find (fun v => negb (hashable v)) args) as [v|] eqn:Hf.
  - exists (unhashable v). split; [done|]. by destruct v.
  - assert (Hall : Forall (fun v => hashable v = true) args).
    { apply Forall_forall. intros v Hv.
      pose proof (find_none _ _ Hf v (proj1 (list_elem_of_In _ _) Hv)) as Hn.
      simpl in Hn.
      by destruct (hashable v). }
    destruct Hbad as [Hlen|Hex].
    + destruct args as [|a [|b [|c l]]]; simpl in *; try done;
        by eexists.
    + apply Exists_exists in Hex as (v & Hv & Hh).
      rewrite Forall_forall in Hall. specialize (Hall v Hv). congruence.
Qed.

(** X15. A request whose origin is not a pair of hashable values is
    answered 500 before any search is made: the state, table and
    counters included, is left exactly as it was. *)
Theorem bad_origin_is_rejected_untouched data o origin d destination s :
  getitem data "origin" = Ok o -> py_tuple o = Ok origin ->
  getitem data "destination" = Ok d -> py_tuple d = Ok destination ->
  length origin <> 2%nat \/ Exists (fun v => hashable v = false) origin ->
  exists msg,
    shortest_path L (Ok data) s = (Ok (VDict [("error", VStr msg)], 500), s).
Proof.
  intros Ho Hto Hd Htd Hbad.
  destruct (get_nearest_node_rejects origin s Hbad) as (e & He & Hk).
  exists (exn_str e).
  unfold shortest_path, try_except, shortest_path_try, bind, lift. simpl.
  rewrite Ho, Hto, Hd, Htd.
  unfold find_shortest_path, try_except_kinds, try_except, bind.
  rewrite He. simpl. by rewrite Hk.
Qed.

End MoreTable.

(** *** More on the handler *)

Section MoreHandler.
Context (L : Libs).
Import RouteService.

Lemma path_coords_of g p cs :
  path_coords L g p = Ok cs -> Forall2 (coords_of g) p cs.
Proof.
  revert cs. induction p as [|n p IH]; intros cs; cbn [path_coords].
  - intros [= <-]. constructor.
  - unfold node_attr.
    destruct (g_nodes g !! n) as [d|] eqn:Hn; [|discriminate].
    destruct (d !! "y") as [y|] eqn:Hy; [|discriminate].
    destruct (d !! "x") as [x|] eqn:Hx; [|discriminate].
    destruct (path_coords L g p) as [cs'|]; [|discriminate].
    intros [= <-]. constructor; [by exists d|by apply IH].
Qed.

Lemma create_route_map_cases origin path s :
  create_route_map L origin path s = (Ok (None, None), s) \/
  exists p g html coords lat lng,
    create_route_map L origin path s = (Ok (Some html, Some coords), s) /\
    path = Some p /\ p <> [] /\ graph s = Some g /\
    Forall2 (coords_of g) p coords /\
    origin !! 0%nat = Some lat /\ origin !! 1%nat = Some lng /\
    folium_repr_html L lat lng coords = Ok html.
Proof.
  unfold create_route_map.
  destruct path as [[|n p]|]; [by left|..|by left].
  unfold try_except, bind, get, lift, ret, raise, tuple_item.
  destruct (graph s) as [g|]; [|by left]. cbv beta iota.
  destruct (path_coords L g (n :: p)) as [cs|] eqn:Hcs; [|by left].
  destruct (origin !! 0%nat) as [lat|] eqn:H0; [|by left].
  destruct (origin !! 1%nat) as [lng|] eqn:H1; [|by left].
  destruct (folium_repr_html L lat lng cs) as [html|] eqn:Hh; [|by left].
  right. exists (n :: p), g, html, cs, lat, lng.
  split_and!; try done. by apply path_coords_of.
Qed.

(** X16. [create_route_map] never raises and never changes the service.
    It returns no map and no coordinates, or a map together with one
    coordinate pair for each node of the path, in order: the [y] and the
    [x] the graph holds for that node. *)
Theorem create_route_map_gives_all_or_nothing origin path s :
  exists m c,
    create_route_map L origin path s = (Ok (m, c), s) /\
    ((m = None /\ c = None) \/
     exists p g html coords,
       path = Some p /\ graph s = Some g /\
       m = Some html /\ c = Some coords /\
       length coords = length p /\ Forall2 (coords_of g) p coords).
Proof.
  destruct (create_route_map_cases origin path s)
    as [H|(p & g & html & cs & lat & lng & H & -> & _ & Hg & Hcs & _)].
  - exists None, None. split; [done|by left].
  - exists (Some html), (Some cs). split; [done|]. right.
    exists p, g, html, cs. split_and!; try done.
    symmetry. by eapply Forall2_length.
Qed.

(** X17. A path through a node for which the graph holds no coordinates is
    answered 500 with the fixed message about the map, whatever folium
    would do. *)
Theorem path_without_coordinates_gives_500
    data o origin d destination s n p s1 g m :
  getitem data "origin" = Ok o -> py_tuple o = Ok origin ->
  getitem data "destination" = Ok d -> py_tuple d = Ok destination ->
  find_shortest_path L origin destination s = (Ok (Some (n :: p)), s1) ->
  graph s1 = Some g ->
  m ∈ n :: p -> (forall c, ~ coords_of g m c) ->
  shortest_path L (Ok data) s =
  (Ok (VDict [("error", VStr "Error creating map visualization")], 500), s1).
Proof.
  intros Ho Hto Hd Htd Hpath Hg Hm Hno.
  unfold shortest_path, try_except, shortest_path_try, bind, lift. simpl.
  rewrite Ho, Hto, Hd, Htd, Hpath.
  destruct (create_route_map_cases origin (Some (n :: p)) s1)
    as [->|(p' & g' & html & cs & lat & lng & _ & [= <-] & _ & Hg' & Hcs & _)];
    [done|].
  rewrite Hg in Hg'. injection Hg' as <-.
  apply list_elem_of_lookup in Hm as [i Hi].
  destruct (Forall2_lookup_l _ _ _ _ _ Hcs Hi) as (c & _ & Hc).
  by destruct (Hno c).
Qed.

(** X18. [find_shortest_path] never raises [NetworkXNoPath] or
    [NodeNotFound]: whichever call raised one of them, it returns
    [None]; every other exception passes through. *)
Theorem find_shortest_path_never_raises_no_path o d s e s' :
  find_shortest_path L o d s = (Raise e, s') ->
  exn_kind_of e <> NetworkXNoPath /\ exn_kind_of e <> NodeNotFound.
Proof.
  unfold find_shortest_path, try_except_kinds, try_except.
  match goal with
  | |- context [match ?c s with _ => _ end] => destruct (c s) as [[a|x] s0]
  end; [done|].
  destruct (exn_kind_of x) eqn:Hk; simpl; unfold ret, raise;
    intros [= <- <-]; try done; by rewrite Hk.
Qed.

(** X19. 404 is given for no other reason than a missing path: the body is
    then the fixed message, and [find_shortest_path] had returned [None]
    (or an empty path) for the two points of the request. *)
Theorem not_found_means_no_path req s body s' :
  shortest_path L req s = (Ok (body, 404), s') ->
  body = VDict [("error", VStr "No path found between the given points")] /\
  exists data o origin d destination,
    req = Ok data /\
    getitem data "origin" = Ok o /\ py_tuple o = Ok origin /\
    getitem data "destination" = Ok d /\ py_tuple d = Ok destination /\
    (find_shortest_path L origin destination s = (Ok None, s') \/
     find_shortest_path L origin destination s = (Ok (Some []), s')).
Proof.
  unfold shortest_path, try_except.
  destruct (shortest_path_try L req s) as [[r|e] s0] eqn:H;
    [|unfold ret; discriminate].
  intros [= -> ->]. unfold shortest_path_try in H.
  apply bind_Ok in H as (data & ? & [Hreq ->]%lift_Ok & H).
  apply bind_Ok in H as (o & ? & [Ho ->]%lift_Ok & H).
  apply bind_Ok in H as (origin & ? & [Hto ->]%lift_Ok & H).
  apply bind_Ok in H as (d & ? & [Hd ->]%lift_Ok & H).
  apply bind_Ok in H as (destination & ? & [Htd ->]%lift_Ok & H).
  apply bind_Ok in H as (path & s1 & Hpath & H).
  assert (Hbody : forall b, (b, 404) = (body, 404) -> b = body)
    by (by intros b [= ->]).
  destruct path as [[|n p]|].
  - injection H as <- <-. split; [done|].
    exists data, o, origin, d, destination. split_and!; auto.
  - apply bind_Ok in H as (m & s2 & Hm & H).
    destruct m as [[[|c html]|] [coords|]]; try discriminate H.
    apply bind_Ok in H as (s3 & ? & _ & H).
    apply bind_Ok in H as (? & ? & _ & H).
    apply bind_Ok in H as (? & ? & _ & H). discriminate H.
  - injection H as <- <-. split; [done|].
    exists data, o, origin, d, destination. split_and!; auto.
Qed.

End MoreHandler.

(** *** The catch-all page *)

Lemma substring_append_head a b :
  substring 0 (String.length a) (a ++ b) = a.
Proof. induction a as [|c a IH]; simpl; [by destruct b|]. by rewrite IH. Qed.

Lemma substring_append_skip a b n m :
  substring (String.length a + n) m (a ++ b) = substring n m b.
Proof. induction a as [|c a IH]; simpl; [done|]. apply IH. Qed.

Lemma substring_whole a : substring 0 (String.length a) a = a.
Proof. induction a as [|c a IH]; simpl; [done|]. by rewrite IH. Qed.

Lemma length_append a b :
  String.length (a ++ b) = (String.length a + String.length b)%nat.
Proof. induction a as [|c a IH]; simpl; [done|]. by rewrite IH. Qed.

(** X20. The page of [all_routes] is the fixed text before the path, the
    requested path character for character, nothing escaped and nothing
    dropped, and the fixed text after it. *)
Theorem all_routes_echoes_the_path p :
  substring 0 (String.length page_head) (all_routes p) = page_head /\
  substring (String.length page_head) (String.length p) (all_routes p) = p /\
  substring (String.length page_head + String.length p)
            (String.length page_tail) (all_routes p) = page_tail /\
  String.length (all_routes p)
  = (String.length page_head + String.length p
     + String.length page_tail)%nat.
Proof.
  unfold all_routes. split_and!.
  - apply substring_append_head.
  - rewrite <- (Nat.add_0_r (String.length page_head)).
    rewrite substring_append_skip. apply substring_append_head.
  - rewrite substring_append_skip.
    rewrite <- (Nat.add_0_r (String.length p)).
    rewrite substring_append_skip. apply substring_whole.
  - rewrite !length_append. lia.
Qed.
(** *** Runs in the sample worlds *)

Section Runs.
Import RouteService.

Example split_40_mph : head (split "40 mph") = Some "40".
Proof. reflexivity. Qed.

Example town_is_annotated :
  (download_and_cache_graph Toy.libs Sample.online Sample.fresh).2.(graph)
  = Some Sample.town.
Proof. vm_compute. reflexivity. Qed.


Lemma town_walks s t q c :
  walk Sample.town s t q c ->
  (t = s /\ q = [s] /\ c = 0%float) \/
  (s = 1 /\ t = 2 /\ q = [1; 2] /\ c = (0 + 9)%float).
Proof.
  induction 1 as [|t p c e w Hw IH He Hu Hwt]; [by left|].
  right. apply list_elem_of_singleton in He. subst e. simpl in *.
  injection Hwt as <-.
  destruct IH as [(Hs & -> & ->)|(_ & Ht & _)]; [|congruence].
  by rewrite <- Hs, <- Hu.
Qed.

Lemma town_contract_1_2 : nx_contract Toy.libs Sample.town 1 2.
Proof.
  unfold nx_contract.
  replace (nx_shortest_path Toy.libs (Some Sample.town) 1 2)
    with (@Ok (list Z) [1; 2]) by (vm_compute; reflexivity).
  exists (0 + 9)%float. split.
  - apply (walk_edge Sample.town 1 1 [1] 0%float Sample.main_road 9%float).
    + apply walk_here. by eexists.
    + by apply list_elem_of_singleton.
    + done.
    + done.
  - intros q c' [([=] & _)|(_ & _ & _ & ->)]%town_walks. reflexivity.
Qed.

Lemma town_contract_2_1 : nx_contract Toy.libs Sample.town 2 1.
Proof.
  unfold nx_contract.
  replace (nx_shortest_path Toy.libs (Some Sample.town) 2 1)
    with (@Raise (list Z) (Exn NetworkXNoPath "No path between the nodes"))
    by (vm_compute; reflexivity).
  split; [by left|].
  by intros q c [([=] & _)|([=] & _)]%town_walks.
Qed.

Lemma town_no_walk_2_1 p c : ~ walk Sample.town 2 1 p c.
Proof. pose proof town_contract_2_1 as [_ H]. apply H. Qed.

Example sum_of_three_terms :
  py_sum Toy.libs_311 [1e16; 1; 1]%float = VFloat 1e16 /\
  py_sum Toy.libs [1e16; 1; 1]%float = VFloat 10000000000000002.
Proof. split; vm_compute; reflexivity. Qed.

Lemma route_stats_sum_key0_edges_witness :
  exists g origin destination s1 path coords lengths times
         total_distance estimated_time,
    graph Case.on_line = Some g /\
    find_shortest_path Toy.libs origin destination Case.on_line
      = (Ok (Some path), s1) /\
    path_coords Toy.libs g path = Ok coords /\
    length lengths = Nat.pred (length path) /\
    length times = Nat.pred (length path) /\
    (forall i u v, path !! i = Some u -> path !! S i = Some v ->
       exists x f, key0_attr g u v "length" x /\
                   py_float Toy.libs x = Ok f /\ lengths !! i = Some f) /\
    (forall i u v, path !! i = Some u -> path !! S i = Some v ->
       exists x f, key0_attr g u v "travel_time" x /\
                   py_float Toy.libs x = Ok f /\ times !! i = Some f) /\
    is_sum Toy.libs lengths total_distance /\
    is_sum Toy.libs times estimated_time /\
    VDict [("path", VList [VList [VFloat 0; VFloat 0];
                           VList [VFloat 10; VFloat 10];
                           VList [VFloat 20; VFloat 20]]);
           ("stats", VDict [("total_distance", VFloat 350.5);
                            ("estimated_time", VFloat 39.25)])]
    = VDict [("path", coords_json coords);
             ("stats", VDict [("total_distance", total_distance);
                              ("estimated_time", estimated_time)])].
Proof.
  apply (route_stats_sum_key0_edges Toy.libs
           (Ok (Sample.body (Sample.point 0 0) (Sample.point 20 20)))
           Case.on_line _
           (shortest_path Toy.libs
              (Ok (Sample.body (Sample.point 0 0) (Sample.point 20 20)))
              Case.on_line).2).
  vm_compute. reflexivity.
Defined.

Lemma find_shortest_path_between_resolved_nodes_witness :
  ((memoized (VFloat 0) (VFloat 0) Sample.in_town = Some 1 \/
    memoized (VFloat 0) (VFloat 0) Sample.in_town = None /\
    ox_nearest_nodes Toy.libs (Some Sample.town) (VFloat 0) (VFloat 0)
      = Ok 1) /\
   (memoized (VFloat 10) (VFloat 10) Sample.in_town_sw = Some 2 \/
    memoized (VFloat 10) (VFloat 10) Sample.in_town_sw = None /\
    ox_nearest_nodes Toy.libs (Some Sample.town) (VFloat 10) (VFloat 10)
      = Ok 2) /\
   ((exists p,
       find_shortest_path Toy.libs (Sample.point 0 0) (Sample.point 10 10)
         Sample.in_town = (Ok (Some p), Sample.in_town_sw_ne) /\
       head p = Some 1 /\ last p = Some 2 /\
       shortest_walk Sample.town 1 2 p) \/
    (find_shortest_path Toy.libs (Sample.point 0 0) (Sample.point 10 10)
       Sample.in_town = (Ok None, Sample.in_town_sw_ne) /\
     forall p c, ~ walk Sample.town 1 2 p c))) /\
  find_shortest_path Toy.libs [VFloat nan; VFloat 0] (Sample.point 10 10)
    Sample.in_town
  = (Raise (Exn ValueError "`X` and `Y` cannot contain nulls"),
     tick_nearest Sample.in_town).
Proof.
  split.
  - apply (proj1 (find_shortest_path_between_resolved_nodes Toy.libs
             (VFloat 0) (VFloat 0) (VFloat 10) (VFloat 10) Sample.in_town)
             Sample.town 1 Sample.in_town_sw 2 Sample.in_town_sw_ne).
    + reflexivity.
    + vm_compute. reflexivity.
    + vm_compute. reflexivity.
    + exact town_contract_1_2.
  - apply (proj1 (proj2 (find_shortest_path_between_resolved_nodes Toy.libs
             (VFloat nan) (VFloat 0) (VFloat 10) (VFloat 10) Sample.in_town))
             (Exn ValueError "`X` and `Y` cannot contain nulls")
             (tick_nearest Sample.in_town)).
    vm_compute. reflexivity.
Defined.

(** C7 as stated fails: the service held [town] when (10, 10) was first
    looked up; after the refresh put [lone] in memory the node memoized
    for that point is no node of the graph, and the request from the point
    to itself is answered 404. A service started on a cache file that
    pickled [None] answers it 500. *)
Lemma same_point_is_not_always_answered :
  graph Case.after_shrink = Some Sample.lone /\
  (shortest_path Toy.libs
     (Ok (Sample.body (Sample.point 10 10) (Sample.point 10 10)))
     Case.after_shrink).1
  = Ok (VDict [("error", VStr "No path found between the given points")],
        404) /\
  graph Case.started_empty = None /\
  exists msg,
    (shortest_path Toy.libs
       (Ok (Sample.body (Sample.point 0 0) (Sample.point 0 0)))
       Case.started_empty).1
    = Ok (VDict [("error", VStr msg)], 500).
Proof.
  split_and!; [vm_compute; reflexivity..|].
  eexists. vm_compute. reflexivity.
Qed.

Lemma no_path_gives_404_witness :
  shortest_path Toy.libs
    (Ok (Sample.body (Sample.point 10 10) (Sample.point 0 0))) Sample.in_town =
  (Ok (VDict [("error", VStr "No path found between the given points")], 404),
   Sample.in_town_ne_sw).
Proof.
  apply (no_path_gives_404 Toy.libs
           (Sample.body (Sample.point 10 10) (Sample.point 0 0))
           (VList (Sample.point 10 10)) (Sample.point 10 10)
           (VList (Sample.point 0 0)) (Sample.point 0 0)
           Sample.in_town Sample.town 2 Sample.in_town_ne 1
           Sample.in_town_ne_sw).
  - reflexivity.
  - reflexivity.
  - reflexivity.
  - reflexivity.
  - reflexivity.
  - vm_compute. reflexivity.
  - vm_compute. reflexivity.
  - exact town_contract_2_1.
  - exact town_no_walk_2_1.
Defined.

Lemma same_point_gives_single_node_route_witness :
  exists s2,
    shortest_path Toy.libs
      (Ok (Sample.body (Sample.point 0 0) (Sample.point 0 0))) Sample.in_town =
    (Ok (VDict [("path", VList [VList [VFloat 0; VFloat 0]]);
                ("stats", VDict [("total_distance", VInt 0);
                                 ("estimated_time", VInt 0)])], 200), s2).
Proof.
  apply (same_point_gives_single_node_route Toy.libs
           (Sample.body (Sample.point 0 0) (Sample.point 0 0))
           (VList (Sample.point 0 0)) (VFloat 0) (VFloat 0)
           Sample.in_town Sample.town 1 Sample.in_town_sw
           (VFloat 0) (VFloat 0) "<div>map</div>").
  - reflexivity.
  - reflexivity.
  - reflexivity.
  - reflexivity.
  - vm_compute. reflexivity.
  - vm_compute. reflexivity.
  - vm_compute. reflexivity.
  - vm_compute. reflexivity.
  - reflexivity.
  - discriminate.
Defined.

Lemma get_nearest_node_hits_cache_witness :
  (forall s2, nearest_cache s2 = nearest_cache Sample.in_town_ne ->
     exists c, get_nearest_node Toy.libs [VFloat 10; VFloat 10] s2 =
               (Ok 2, set_nearest_cache c s2)) /\
  (forall E rounds,
     let s2 := (periodic_graph_update Toy.libs E rounds Sample.in_town_ne).2 in
     exists c, get_nearest_node Toy.libs [VFloat 10; VFloat 10] s2 =
               (Ok 2, set_nearest_cache c s2)).
Proof.
  apply (get_nearest_node_hits_cache Toy.libs (VFloat 10) (VFloat 10)
           Sample.in_town 2 Sample.in_town_ne).
  - reflexivity.
  - reflexivity.
  - vm_compute. reflexivity.
Defined.

(** C3 as stated fails: the service held [lone] when (10, 10) was first
    looked up; after the refresh put [town] in memory the path for that
    point starts at node 1, while the nearest node of [town] is node 2.
    And for a point the search rejects, [find_shortest_path] neither
    returns a path nor [None]: it raises. *)
Lemma stale_table_gives_other_node :
  graph Sample.after_swap = Some Sample.town /\
  (find_shortest_path Toy.libs (Sample.point 10 10) (Sample.point 10 10)
     Sample.after_swap).1 = Ok (Some [1]) /\
  ox_nearest_nodes Toy.libs (graph Sample.after_swap) (VFloat 10) (VFloat 10)
  = Ok 2 /\
  (find_shortest_path Toy.libs (Sample.point nan nan) (Sample.point 0 0)
     Sample.in_town).1
  = Raise (Exn ValueError "`X` and `Y` cannot contain nulls").
Proof. cbv zeta. split_and!; vm_compute; reflexivity. Qed.

(** C4 as stated fails: with a graph in memory, a day-old timestamp and a
    cache file that does not load, [load_graph] returns without a single
    download call, the network being up; and a service that holds a graph
    but no timestamp reloads at once. *)
Lemma failed_cache_load_does_not_download :
  (let s := Sample.serving Sample.lone 0 (Some Corrupt) in
   let r := load_graph Toy.libs Sample.next_day s in
   (should_update_graph Sample.next_day s).1 = Ok true /\
   r.1 = Ok tt /\ n_place r.2 = 0%nat /\ n_bbox r.2 = 0%nat /\
   graph r.2 = Some Sample.lone /\ last_update r.2 = Some 0) /\
  (graph Sample.recovered = Some Sample.town /\
   last_update Sample.recovered = None /\
   (should_update_graph Sample.online Sample.recovered).1 = Ok true).
Proof. cbv zeta. split_and!; vm_compute; reflexivity. Qed.


Lemma load_graph_policy_witness :
  let s := Sample.serving Sample.lone 0 (Some Corrupt) in
  reload_due Sample.next_day s /\
  load_graph Toy.libs Sample.next_day s = (Ok tt, checked Sample.next_day s).
Proof.
  intros s.
  assert (Hdue : reload_due Sample.next_day s).
  { right; right. exists 0. split; reflexivity. }
  split; [exact Hdue|].
  exact (proj1 (proj2 (load_graph_policy Toy.libs Sample.next_day s)) Hdue).
Defined.


Lemma shortest_path_answers_500_on_exception_witness :
  shortest_path Toy.libs
    (Ok (VDict [("destination", VList (Sample.point 0 0))])) Sample.in_town =
  (Ok (VDict [("error", VStr "'origin'")], 500), Sample.in_town).
Proof.
  apply (proj1 (proj2 (proj2
           (shortest_path_answers_500_on_exception Toy.libs
              (Ok (VDict [("destination", VList (Sample.point 0 0))]))
              Sample.in_town)))
           [("destination", VList (Sample.point 0 0))]).
  - reflexivity.
  - reflexivity.
Defined.

Lemma request_leaves_graph_alone_witness :
  request_frame Sample.in_town
    (shortest_path Toy.libs
       (Ok (Sample.body (Sample.point 0 0) (Sample.point 10 10)))
       Sample.in_town).2 /\
  (~ request_frame Sample.fresh
       (run Toy.libs Sample.online Refresh Sample.fresh) /\
   Refresh = Refresh).
Proof.
  pose proof (request_leaves_graph_alone Toy.libs Sample.online Sample.in_town)
    as [H1 _].
  pose proof (request_leaves_graph_alone Toy.libs Sample.online Sample.fresh)
    as [_ H2].
  assert (Hch : ~ request_frame Sample.fresh
                  (run Toy.libs Sample.online Refresh Sample.fresh)).
  { intros (Hg & _). vm_compute in Hg. discriminate Hg. }
  split; [apply H1|]. split; [exact Hch|]. exact (H2 Refresh Hch).
Defined.

End Runs.

(** *** More runs in the sample worlds *)

Section MoreRuns.
Import RouteService.

Lemma annotate_edge_touches_two_keys_witness :
  (annotate_edge Toy.libs (e_data Case.signed_road)).2 !! "length"
  = e_data Case.signed_road !! "length".
Proof.
  apply (annotate_edge_touches_two_keys Toy.libs (e_data Case.signed_road)
           "length"); discriminate.
Defined.

Lemma annotate_edge_idempotent_witness :
  annotate_edge Toy.libs (e_data Sample.main_road)
  = (Ok tt, e_data Sample.main_road).
Proof.
  apply (annotate_edge_idempotent Toy.libs (e_data Case.signed_road)
           (e_data Sample.main_road)).
  vm_compute. reflexivity.
Defined.

Lemma annotate_edges_stops_at_first_failure_witness :
  exists (before before' : list edge) e after,
    [Case.signed_road; Case.unsigned_loop; Case.signed_road]
    = (before ++ e :: after)%list /\
    annotate_edges Toy.libs before = (Ok tt, before') /\
    (annotate_edge Toy.libs (e_data e)).1
    = Raise (Exn ValueError "could not convert string to float") /\
    [Sample.main_road; Case.unsigned_loop; Case.signed_road]
    = (before' ++ with_data e (annotate_edge Toy.libs (e_data e)).2
         :: after)%list.
Proof.
  apply (annotate_edges_stops_at_first_failure Toy.libs
           [Case.signed_road; Case.unsigned_loop; Case.signed_road]).
  vm_compute. reflexivity.
Defined.


Lemma reload_after_download_reads_the_file_witness :
  load_graph Toy.libs Sample.online Case.stale_with_file
  = (Ok tt, stamped Sample.online
              (set_graph (graph Case.downloaded)
                 (checked Sample.online Case.stale_with_file))).
Proof.
  apply (reload_after_download_reads_the_file Toy.libs Sample.online
           Sample.fresh Case.downloaded Case.stale_with_file).
  - vm_compute. reflexivity.
  - reflexivity.
  - right; right. exists (-100000000000). split; reflexivity.
Defined.

Lemma stamped_refresh_rests_witness :
  let s1 := (load_graph Toy.libs Case.hourly Sample.fresh).2 in
  last_update s1 = Some (datetime_now Case.hourly (Nat.pred (n_now s1))) /\
  load_graph Toy.libs Case.hourly s1 = (Ok tt, tick_now s1).
Proof.
  apply (stamped_refresh_rests Toy.libs Case.hourly Sample.fresh).
  - by left.
  - right. split; [reflexivity|]. vm_compute. reflexivity.
  - vm_compute. reflexivity.
  - vm_compute. discriminate.
Defined.


Lemma periodic_graph_update_dies_witness :
  periodic_graph_update Toy.libs Case.dead 5 Sample.fresh
  = (Raise Toy.down,
     (periodic_graph_update Toy.libs Case.dead 1 Sample.fresh).2).
Proof.
  apply (periodic_graph_update_dies Toy.libs Case.dead 1 5 Sample.fresh).
  - vm_compute. reflexivity.
  - repeat constructor.
Defined.


Lemma failed_search_is_not_memoized_witness :
  get_nearest_node Toy.libs [VFloat nan; VFloat 0] Sample.in_town
  = (Raise (Exn ValueError "`X` and `Y` cannot contain nulls"),
     tick_nearest Sample.in_town) /\
  forall s2, nearest_cache s2 = nearest_cache Sample.in_town ->
    get_nearest_node Toy.libs [VFloat nan; VFloat 0] s2 =
    match ox_nearest_nodes Toy.libs (graph s2) (VFloat 0) (VFloat nan) with
    | Ok n =>
        (Ok n, set_nearest_cache
                 (take maxsize ((VFloat nan, VFloat 0, n) :: nearest_cache s2))
                 (tick_nearest s2))
    | Raise e2 => (Raise e2, tick_nearest s2)
    end.
Proof.
  apply (failed_search_is_not_memoized Toy.libs (VFloat nan) (VFloat 0)
           Sample.in_town); reflexivity.
Defined.

Lemma bad_origin_is_rejected_untouched_witness :
  exists msg,
    shortest_path Toy.libs
      (Ok (Sample.body [VFloat 0; VFloat 0; VFloat 0] (Sample.point 0 0)))
      Sample.in_town
    = (Ok (VDict [("error", VStr msg)], 500), Sample.in_town).
Proof.
  apply (bad_origin_is_rejected_untouched Toy.libs
           (Sample.body [VFloat 0; VFloat 0; VFloat 0] (Sample.point 0 0))
           (VList [VFloat 0; VFloat 0; VFloat 0]) [VFloat 0; VFloat 0; VFloat 0]
           (VList (Sample.point 0 0)) (Sample.point 0 0) Sample.in_town);
    try reflexivity.
  left. discriminate.
Defined.

Lemma path_without_coordinates_gives_500_witness :
  shortest_path Toy.libs
    (Ok (Sample.body (Sample.point 0 0) (Sample.point 10 10))) Case.in_gap
  = (Ok (VDict [("error", VStr "Error creating map visualization")], 500),
     (find_shortest_path Toy.libs (Sample.point 0 0) (Sample.point 10 10)
        Case.in_gap).2).
Proof.
  apply (path_without_coordinates_gives_500 Toy.libs
           (Sample.body (Sample.point 0 0) (Sample.point 10 10))
           (VList (Sample.point 0 0)) (Sample.point 0 0)
           (VList (Sample.point 10 10)) (Sample.point 10 10)
           Case.in_gap 1 [3; 2] _ Case.gap 3).
  - reflexivity.
  - reflexivity.
  - reflexivity.
  - reflexivity.
  - vm_compute. reflexivity.
  - vm_compute. reflexivity.
  - apply list_elem_of_further, list_elem_of_here.
  - intros c (d & Hd & Hy & _). vm_compute in Hd. injection Hd as <-.
    vm_compute in Hy. discriminate Hy.
Defined.

Lemma find_shortest_path_never_raises_no_path_witness :
  ValueError <> NetworkXNoPath /\ ValueError <> NodeNotFound.
Proof.
  apply (find_shortest_path_never_raises_no_path Toy.libs
           [VFloat nan; VFloat 0] (Sample.point 0 0) Sample.in_town
           (Exn ValueError "`X` and `Y` cannot contain nulls")
           (tick_nearest Sample.in_town)).
  vm_compute. reflexivity.
Defined.

Lemma not_found_means_no_path_witness :
  VDict [("error", VStr "No path found between the given points")]
  = VDict [("error", VStr "No path found between the given points")] /\
  exists data o origin d destination,
    Ok (Sample.body (Sample.point 10 10) (Sample.point 0 0)) = Ok data /\
    getitem data "origin" = Ok o /\ py_tuple o = Ok origin /\
    getitem data "destination" = Ok d /\ py_tuple d = Ok destination /\
    (find_shortest_path Toy.libs origin destination Sample.in_town
     = (Ok None, Sample.in_town_ne_sw) \/
     find_shortest_path Toy.libs origin destination Sample.in_town
     = (Ok (Some []), Sample.in_town_ne_sw)).
Proof.
  apply (not_found_means_no_path Toy.libs
           (Ok (Sample.body (Sample.point 10 10) (Sample.point 0 0)))
           Sample.in_town).
  vm_compute. reflexivity.
Defined.

Lemma all_routes_echoes_the_path_witness :
  substring (String.length page_head) (String.length "<b>a&b</b>/c d")
            (all_routes "<b>a&b</b>/c d") = "<b>a&b</b>/c d".
Proof.
  exact (proj1 (proj2 (all_routes_echoes_the_path "<b>a&b</b>/c d"))).
Defined.

End MoreRuns.
